(** * ShipQuote Pro: freight quotes, distance cache and quote ledger

    A shallow embedding of the quote calculator of the repository:
    - [pages/api/createQuote.js]: [getDistance], [calculateTotal], [handler];
    - [pages/index.js]: [sortQuotes], [deleteQuote], [handleCreateQuote],
      [filteredQuotes];
    - [components/QuoteHistory.js]: pagination and the delete button.

    JavaScript numbers are modelled as exact rationals extended with [NaN]
    (no rounding, no infinities); the digits of a price are those of module
    [Binary64], the rate calculator on binary64 numbers. [localStorage] is a
    finite map from string keys to stored values that accepts every write;
    module [Quota] has the quote creation over a store that can refuse
    one. *)

From Stdlib Require Import ZArith QArith Qround Qminmax Qfield String Ascii List Lia
  Permutation Sorted Qabs PrimFloat SpecFloat FloatOps.
From stdpp Require Import base option list gmap strings.

Local Open Scope string_scope.
Local Open Scope Z_scope.

(** ** The JavaScript values and built-ins the program uses *)

Module JS.

(** A number: a finite value or [NaN]. The operations below are exact:
    where JavaScript rounds a result to binary64, the value here is the one
    before rounding (1.616 * 100 is 161.6, and 161.60000000000002 in
    JavaScript). *)
Inductive Number : Type :=
  | Fin (q : Q)
  | NaN.

Definition lift2 (f : Q -> Q -> Q) (a b : Number) : Number :=
  match a, b with
  | Fin p, Fin q => Fin (f p q)
  | _, _ => NaN
  end.

Definition add : Number -> Number -> Number := lift2 Qplus.
Definition sub : Number -> Number -> Number := lift2 Qminus.
Definition mul : Number -> Number -> Number := lift2 Qmult.

(** [a / b]; the program only divides by the non-zero constants 1000, 100
    and 541, a zero divisor is mapped to [NaN]. *)
Definition div (a b : Number) : Number :=
  match a, b with
  | Fin p, Fin q => if Qeq_bool q 0 then NaN else Fin (p / q)
  | _, _ => NaN
  end.

(** Comparisons: every comparison with [NaN] is false. *)
Definition lt (a b : Number) : bool :=
  match a, b with
  | Fin p, Fin q => negb (Qle_bool q p)
  | _, _ => false
  end.

Definition gt (a b : Number) : bool := lt b a.

Definition le (a b : Number) : bool :=
  match a, b with
  | Fin p, Fin q => Qle_bool p q
  | _, _ => false
  end.

(** [a == b] on numbers. *)
Definition looseEq (a b : Number) : bool :=
  match a, b with
  | Fin p, Fin q => Qeq_bool p q
  | _, _ => false
  end.

(** [Math.ceil]. *)
Definition ceil (a : Number) : Number :=
  match a with
  | Fin q => Fin (inject_Z (Qceiling q))
  | NaN => NaN
  end.

(** Truthiness of a number: [0] and [NaN] are falsy. *)
Definition truthy (a : Number) : bool :=
  match a with
  | Fin q => negb (Qeq_bool q 0)
  | NaN => false
  end.

Definition ofZ (z : Z) : Number := Fin (inject_Z z).

(** A value that may be missing: [undefined], [null] or a number. *)
Inductive Value : Type :=
  | undefined
  | null
  | number (n : Number).

(** [v == null] holds for [null] and [undefined] only. *)
Definition isNull (v : Value) : bool :=
  match v with
  | undefined | null => true
  | number _ => false
  end.

Definition ToBoolean (v : Value) : bool :=
  match v with
  | undefined | null => false
  | number n => truthy n
  end.

(** Conversion of an operand of [*]: [undefined] becomes [NaN]. *)
Definition ToNumber (v : Value) : Number :=
  match v with
  | undefined => NaN
  | null => Fin 0
  | number n => n
  end.

(** [JSON.stringify] writes a [NaN] as [null]. *)
Definition toJSON (n : Number) : Value :=
  match n with
  | Fin q => number (Fin q)
  | NaN => null
  end.

(** *** Strings *)

(** Truthiness of a string: only the empty string is falsy. *)
Definition nonEmpty (s : string) : bool :=
  match s with
  | EmptyString => false
  | String _ _ => true
  end.

Definition lowerChar (c : ascii) : ascii :=
  let n := N_of_ascii c in
  if ((65 <=? n) && (n <=? 90))%N then ascii_of_N (n + 32) else c.

(** [s.toLowerCase()], on the ASCII letters. *)
Fixpoint toLowerCase (s : string) : string :=
  match s with
  | EmptyString => EmptyString
  | String c s' => String (lowerChar c) (toLowerCase s')
  end.

(** [s.includes(t)]. *)
Fixpoint includes (s t : string) : bool :=
  String.prefix t s ||
  match s with
  | EmptyString => false
  | String _ s' => includes s' t
  end.

Definition digit (c : ascii) : option Z :=
  let n := Z.of_N (N_of_ascii c) in
  if (48 <=? n) && (n <=? 57) then Some (n - 48) else None.

(** Reads the longest run of decimal digits at the head of [s]: the value
    read (on top of [acc]), the number of digits and the rest. *)
Fixpoint digits (s : string) (acc : Z) (count : nat) : Z * nat * string :=
  match s with
  | EmptyString => (acc, count, s)
  | String c s' =>
      match digit c with
      | Some d => digits s' (10 * acc + d) (S count)
      | None => (acc, count, s)
      end
  end.

Definition isSpace (c : ascii) : bool :=
  let n := N_of_ascii c in
  ((n =? 32) || ((9 <=? n) && (n <=? 13)))%N.

Fixpoint trimStart (s : string) : string :=
  match s with
  | String c s' => if isSpace c then trimStart s' else s
  | EmptyString => s
  end.

(** An optional sign: whether it is a minus, and the rest. *)
Definition sign (s : string) : bool * string :=
  match s with
  | String "-" s' => (true, s')
  | String "+" s' => (false, s')
  | _ => (false, s)
  end.

(** The exponent part [e±ddd] at the head of [s], 0 when there is none. *)
Definition exponent (s : string) : Z :=
  match s with
  | String c s' =>
      if Ascii.eqb c "e" || Ascii.eqb c "E" then
        let '(neg, s'') := sign s' in
        let '(e, n, _) := digits s'' 0 0%nat in
        if (n =? 0)%nat then 0 else if neg then - e else e
      else 0
  | EmptyString => 0
  end.

(** [parseFloat(s)]: the longest prefix of [s], after leading white space,
    that is a decimal literal; [NaN] when there is none. The literal
    [Infinity] is not modelled. *)
Definition parseFloat (s : string) : Number :=
  let '(neg, s1) := sign (trimStart s) in
  let '(ip, ni, s2) := digits s1 0 0%nat in
  let '(fp, nf, s3) :=
    match s2 with
    | String "." s' => digits s' 0 0%nat
    | _ => (0, 0%nat, s2)
    end in
  if (ni + nf =? 0)%nat then NaN
  else
    let scale := 10 ^ Z.of_nat nf in
    let mantissa := Qmake (ip * scale + fp) (Z.to_pos scale) in
    let magnitude := (mantissa * Qpower 10 (exponent s3))%Q in
    Fin (if neg then Qopp magnitude else magnitude).

(** [parseFloat(v)] of a value that is already a number or is missing:
    the number itself, [NaN] for [null] and [undefined]. *)
Definition parseFloatValue (v : Value) : Number :=
  match v with
  | number n => n
  | undefined | null => NaN
  end.

Definition upperChar (c : ascii) : ascii :=
  let n := N_of_ascii c in
  if ((97 <=? n) && (n <=? 122))%N then ascii_of_N (n - 32) else c.

(** [s.replace(/c/g, d)] for a one-character pattern [c]. *)
Fixpoint replaceAll (c d : ascii) (s : string) : string :=
  match s with
  | EmptyString => EmptyString
  | String x s' => String (if Ascii.eqb x c then d else x) (replaceAll c d s')
  end.

(** [s.split(sep)] for a one-character separator. *)
Fixpoint split (sep : ascii) (s : string) : list string :=
  match s with
  | EmptyString => [EmptyString]
  | String c s' =>
      if Ascii.eqb c sep then EmptyString :: split sep s'
      else
        match split sep s' with
        | word :: words => String c word :: words
        | [] => [String c EmptyString]
        end
  end.

(** [words.join(sep)]. *)
Fixpoint join (sep : string) (words : list string) : string :=
  match words with
  | [] => EmptyString
  | [word] => word
  | word :: words => word +:+ sep +:+ join sep words
  end.

(** *** Dates *)

Definition isLeap (y : Z) : bool :=
  ((y mod 4 =? 0) && negb (y mod 100 =? 0)) || (y mod 400 =? 0).

Definition daysInMonth (y m : Z) : Z :=
  if m =? 2 then (if isLeap y then 29 else 28)
  else if (m =? 4) || (m =? 6) || (m =? 9) || (m =? 11) then 30
  else 31.

(** Days from 1970-01-01 to the civil date [y]-[m]-[d]. *)
Definition daysFromCivil (y m d : Z) : Z :=
  let y' := if m <=? 2 then y - 1 else y in
  let era := y' / 400 in
  let yoe := y' - era * 400 in
  let doy := (153 * (if 2 <? m then m - 3 else m + 9) + 2) / 5 + d - 1 in
  let doe := yoe * 365 + yoe / 4 - yoe / 100 + doy in
  era * 146097 + doe - 719468.

(** The time value of [new Date(s)], in milliseconds, for the date-only
    form [YYYY-MM-DD] that a date input yields; any other string is an
    invalid date, whose time value is [NaN]. *)
Definition Date (s : string) : Number :=
  match s with
  | String y1 (String y2 (String y3 (String y4 (String "-"
      (String m1 (String m2 (String "-" (String d1 (String d2 EmptyString))))))))) =>
      let parsed :=
        a ← digit y1; b ← digit y2; c ← digit y3; e ← digit y4;
        f ← digit m1; g ← digit m2; h ← digit d1; i ← digit d2;
        Some (1000 * a + 100 * b + 10 * c + e, 10 * f + g, 10 * h + i) in
      match parsed with
      | Some (y, m, d) =>
          if (1 <=? m) && (m <=? 12) && (1 <=? d) && (d <=? daysInMonth y m)
          then ofZ (86400000 * daysFromCivil y m d)
          else NaN
      | None => NaN
      end
  | _ => NaN
  end.

(** *** Arrays *)

(** [l.slice(start, end)] for [0 <= start <= end]. *)
Definition slice {A} (l : list A) (start end_ : nat) : list A :=
  take (end_ - start) (drop start l).

(** [l.splice(index, 1)]: the array without the element at [index]; an
    index past the end removes nothing. *)
Definition splice1 {A} (l : list A) (index : nat) : list A :=
  delete index l.

Section Sort.
Context {A : Type} (comparefn : A -> A -> Number).

(** [x] goes after [y] when [comparefn(x, y) > 0]; a [NaN] result counts
    as [0]. *)
Definition after (x y : A) : bool := gt (comparefn x y) (Fin 0).

Fixpoint sortInsert (x : A) (l : list A) : list A :=
  match l with
  | [] => [x]
  | y :: l' => if after x y then y :: sortInsert x l' else x :: y :: l'
  end.

(** [l.sort(comparefn)]. The sort is stable: elements that compare equal
    keep their order, which fixes the result for every comparator that is a
    consistent ordering of the elements. Inserting from the right computes
    that result. *)
Fixpoint sort (l : list A) : list A :=
  match l with
  | [] => []
  | x :: l' => sortInsert x (sort l')
  end.
End Sort.

End JS.

Declare Scope js_scope.
Delimit Scope js_scope with js.
Bind Scope js_scope with JS.Number.
Infix "+" := JS.add : js_scope.
Infix "-" := JS.sub : js_scope.
Infix "*" := JS.mul : js_scope.
Infix "/" := JS.div : js_scope.
Infix "<?" := JS.lt : js_scope.
Infix ">?" := JS.gt : js_scope.
Infix "<=?" := JS.le : js_scope.
Infix "==?" := JS.looseEq (at level 70) : js_scope.

(** ** Quotes *)

(** The price breakdown [calculateTotal] returns. *)
Module Breakdown.
Record t : Type := mk {
  total : JS.Number;
  baseRate : JS.Number;
  weightFactor : JS.Number;
  fuelSurcharge : JS.Number;
  equipmentCharge : JS.Number
}.
End Breakdown.

(** A quote, as the handler builds it and as the ledger stores it. A number
    that is [NaN] on the server reads back as [null] on the client; both are
    falsy and the model keeps [NaN]. *)
Module Quote.
Record t : Type := mk {
  origin : string;
  destination : string;
  equipmentType : string;
  weight : JS.Value;
  pickupDate : string;
  distance : JS.Number;
  days : JS.Number;
  total : JS.Number;
  baseRate : JS.Number;
  weightFactor : JS.Number;
  fuelSurcharge : JS.Number;
  equipmentCharge : JS.Number
}.
End Quote.

(** ** pages/api/createQuote.js *)

Module Api.
Import JS.

(** What the Distance Matrix request comes back with: the fetch fails (or
    its body is not the expected JSON), or the first element of the first
    row carries a status and, when there is a route, a distance in metres. *)
Inductive MatrixReply : Type :=
  | FetchError
  | Element (status : string) (distanceValue : option Z).

(** The external collaborator, queried with (origin, destination). *)
Definition DistanceMatrix : Type := string -> string -> MatrixReply.

(** One request sent to the collaborator. *)
Definition Call : Type := (string * string)%type.

(** [getDistance]: the distance in km, [null] when there is no drivable
    route; an error of the request is caught and logged, which leaves
    [undefined]. Returns the value and the requests made. *)
Definition getDistance (dm : DistanceMatrix) (origin destination : string)
  : Value * list Call :=
  let result :=
    match dm origin destination with
    | FetchError => undefined
    | Element status distanceValue =>
        if String.eqb status "ZERO_RESULTS" then null
        else
          match distanceValue with
          | None => undefined
          | Some metres =>
              let kms := (ofZ metres / Fin 1000)%js in
              number kms
          end
    end in
  (result, [(origin, destination)]).

(** The [multipliers] table, [undefined] for any other key. *)
Definition multipliers (equipmentType : string) : Value :=
  if String.eqb equipmentType "dry_van" then number (Fin 0)
  else if String.eqb equipmentType "reefer" then number (Fin 0.3)
  else if String.eqb equipmentType "flatbed" then number (Fin 0.15)
  else undefined.

Definition calculateTotal (distance weight : Number) (equipmentType : string)
  : Breakdown.t :=
  let avgKmRate := Fin 1.616 in
  let fuelSurchargePercent :=
    if (weight <? Fin 10000)%js then Fin 0.237 else Fin 0.557 in
  let baseRate := (avgKmRate * distance)%js in
  let weightFactor :=
    if (weight >? Fin 10000)%js
    then (((weight - Fin 10000) / Fin 100) * Fin 0.1)%js
    else Fin 0 in
  let equipmentCharge := (baseRate * ToNumber (multipliers equipmentType))%js in
  let fuelSurcharge := ((baseRate + equipmentCharge) * fuelSurchargePercent)%js in
  {| Breakdown.total := (baseRate + equipmentCharge + fuelSurcharge + weightFactor)%js;
     Breakdown.baseRate := baseRate;
     Breakdown.weightFactor := weightFactor;
     Breakdown.fuelSurcharge := fuelSurcharge;
     Breakdown.equipmentCharge := equipmentCharge |}.

(** The request body. A string field that is absent or [null] is the empty
    string: the handler treats the three alike. Every field has the type the
    page sends it with, a string, a number or [null]; a body with an object
    in the place of a field is not represented. *)
Record Body : Type := mkBody {
  origin : string;
  destination : string;
  equipmentType : string;
  weight : Value;
  pickupDate : string;
  cacheDistance : Value
}.

Record Request : Type := mkRequest {
  method : string;
  body : Body
}.

Inductive Payload : Type :=
  | quote (q : Quote.t)
  | error (message : string).

Record Response : Type := mkResponse {
  status : Z;
  json : Payload
}.

(** [200 <= status <= 299]. *)
Definition ok (r : Response) : bool := (200 <=? status r) && (status r <=? 299).

Definition maximumDayTravel : Number := Fin 541.

(** The [days] field of the quote, an expression of [handler]. *)
Definition days (distance : Number) : Number :=
  if (distance ==? Fin 0)%js then Fin 1 else ceil (distance / maximumDayTravel)%js.

(** [handler]: the response and the requests made to the collaborator.
    On the bodies of [Body] nothing in its try block throws and
    [getDistance] catches the errors of its own request, so that the 500
    answer of the catch block has no case here; the source sends it for a
    field that is an object without a usable [toString]. *)
Definition handler (dm : DistanceMatrix) (req : Request) : Response * list Call :=
  if negb (String.eqb (method req) "POST") then
    (mkResponse 405 (error "Method not allowed."), [])
  else
    let '(mkBody origin destination equipmentType weight pickupDate cacheDistance) :=
      body req in
    if negb (nonEmpty origin) || negb (nonEmpty destination)
       || negb (nonEmpty equipmentType) || negb (ToBoolean weight)
       || negb (nonEmpty pickupDate) then
      (mkResponse 400 (error "All fields are required."), [])
    else
      let '(distance, calls) :=
        if isNull cacheDistance then getDistance dm origin destination
        else (number (parseFloatValue cacheDistance), []) in
      match distance with
      | undefined | null =>
          (mkResponse 400
             (error ("No route between " +:+ origin +:+ " and " +:+ destination
                     +:+ " available.")), calls)
      | number distance =>
          let b := calculateTotal distance (parseFloatValue weight) equipmentType in
          (mkResponse 201 (quote
             {| Quote.origin := origin;
                Quote.destination := destination;
                Quote.equipmentType := equipmentType;
                Quote.weight := weight;
                Quote.pickupDate := pickupDate;
                Quote.distance := distance;
                Quote.days := days distance;
                Quote.total := Breakdown.total b;
                Quote.baseRate := Breakdown.baseRate b;
                Quote.weightFactor := Breakdown.weightFactor b;
                Quote.fuelSurcharge := Breakdown.fuelSurcharge b;
                Quote.equipmentCharge := Breakdown.equipmentCharge b |}), calls)
      end.

End Api.

(** ** The rate calculator on binary64 numbers *)

(** [calculateTotal] once more, on the numbers JavaScript computes with:
    IEEE 754 binary64, each operation rounded to nearest. It gives the digits
    of a breakdown where [Api.calculateTotal] gives the value before
    rounding. *)
Module Binary64.
Local Open Scope float_scope.
#[local] Set Warnings "-inexact-float".

Record Breakdown : Type := mkBreakdown {
  total : float;
  baseRate : float;
  weightFactor : float;
  fuelSurcharge : float;
  equipmentCharge : float
}.

(** The [multipliers] table, [None] for [undefined]. *)
Definition multipliers (equipmentType : string) : option float :=
  if String.eqb equipmentType "dry_van" then Some 0
  else if String.eqb equipmentType "reefer" then Some 0.3
  else if String.eqb equipmentType "flatbed" then Some 0.15
  else None.

(** Conversion of an operand of [*]: [undefined] becomes [NaN]. *)
Definition ToNumber (v : option float) : float :=
  match v with
  | Some x => x
  | None => nan
  end.

Definition calculateTotal (distance weight : float) (equipmentType : string)
  : Breakdown :=
  let avgKmRate := 1.616 in
  let fuelSurchargePercent := if weight <? 10000 then 0.237 else 0.557 in
  let baseRate := avgKmRate * distance in
  let weightFactor :=
    if 10000 <? weight then ((weight - 10000) / 100) * 0.1 else 0 in
  let equipmentCharge := baseRate * ToNumber (multipliers equipmentType) in
  let fuelSurcharge := (baseRate + equipmentCharge) * fuelSurchargePercent in
  {| total := baseRate + equipmentCharge + fuelSurcharge + weightFactor;
     baseRate := baseRate;
     weightFactor := weightFactor;
     fuelSurcharge := fuelSurcharge;
     equipmentCharge := equipmentCharge |}.

(** The value of a binary64 number as a rational, [None] for an infinity
    and for [NaN]. *)
Definition exact (x : float) : option Q :=
  match Prim2SF x with
  | S754_zero _ => Some 0%Q
  | S754_finite s m e =>
      Some (inject_Z (if s then Z.neg m else Z.pos m) * 2 ^ e)%Q
  | S754_infinity _ | S754_nan => None
  end.

End Binary64.

(** ** pages/index.js *)

Module Filters.
Record t : Type := mk {
  origin : string;
  equipment : string;
  destination : string
}.
End Filters.

(** The fields of the quote form, with the text of the two location inputs. *)
Module Form.
Record t : Type := mk {
  origin : string;
  destination : string;
  equipmentType : string;
  weight : string;
  pickupDate : string;
  originInputValue : string;
  destinationInputValue : string
}.
End Form.

Module HomePage.
Import JS.

(** A value of [localStorage]. The store holds strings: the ledger under
    the key [quotes] as JSON, a distance as the text of the number. Both
    read back as what was written, and the model keeps the value itself. *)
Inductive Stored : Type :=
  | storedNumber (n : Number)
  | storedQuotes (l : list Quote.t).

(** The state of the page, with the browser's [localStorage]. *)
Record State : Type := mkState {
  form : Form.t;
  quote : option Quote.t;
  quotes : list Quote.t;
  filters : Filters.t;
  loading : bool;
  errorMessage : string;
  localStorage : gmap string Stored
}.

Definition setQuote (v : option Quote.t) (st : State) : State :=
  mkState (form st) v (quotes st) (filters st) (loading st) (errorMessage st)
    (localStorage st).

Definition setQuotes (v : list Quote.t) (st : State) : State :=
  mkState (form st) (quote st) v (filters st) (loading st) (errorMessage st)
    (localStorage st).

Definition setFilters (v : Filters.t) (st : State) : State :=
  mkState (form st) (quote st) (quotes st) v (loading st) (errorMessage st)
    (localStorage st).

Definition setLoading (v : bool) (st : State) : State :=
  mkState (form st) (quote st) (quotes st) (filters st) v (errorMessage st)
    (localStorage st).

Definition setErrorMessage (v : string) (st : State) : State :=
  mkState (form st) (quote st) (quotes st) (filters st) (loading st) v
    (localStorage st).

(** [localStorage.getItem(key)], [None] for [null]. *)
Definition getItem (key : string) (st : State) : option Stored :=
  localStorage st !! key.

(** [localStorage.setItem(key, value)]. *)
Definition setItem (key : string) (value : Stored) (st : State) : State :=
  mkState (form st) (quote st) (quotes st) (filters st) (loading st)
    (errorMessage st) (<[key := value]> (localStorage st)).

(** The key of a route in the distance cache. *)
Definition routeKey (origin destination : string) : string :=
  origin +:+ "-" +:+ destination.

(** The [cacheDistance] field of the request body, as the handler will see
    it: [null] when the key is absent, else what [parseFloat] reads in the
    stored text. *)
Definition cached (item : option Stored) : Value :=
  match item with
  | None => null
  | Some (storedNumber n) => number n
  | Some (storedQuotes _) => number NaN
  end.

Definition sortQuotes (a b : Quote.t) : Number :=
  (Date (Quote.pickupDate a) - Date (Quote.pickupDate b))%js.

(** [[quote, ...quotes].sort(sortQuotes)]. *)
Definition updatedQuotes (q : Quote.t) (quotes : list Quote.t) : list Quote.t :=
  sort sortQuotes (q :: quotes).

Definition deleteQuote (index : nat) (st : State) : State :=
  let savedQuotes := splice1 (quotes st) index in
  let st := setQuotes savedQuotes st in
  setItem "quotes" (storedQuotes savedQuotes) st.

(** [handleCreateQuote], with the API route answered by [Api.handler]: the
    state it leaves and the requests made to the distance collaborator. The
    store accepts every write here; [Quota.handleCreateQuote] is the same
    function over a store that can refuse one. *)
Definition handleCreateQuote (dm : Api.DistanceMatrix) (st : State)
  : State * list Api.Call :=
  let st := setErrorMessage "" st in
  let '(Form.mk origin destination equipmentType weight pickupDate
          originInputValue destinationInputValue) := form st in
  if negb (nonEmpty origin) || negb (nonEmpty destination)
     || negb (nonEmpty equipmentType) || negb (nonEmpty weight)
     || negb (nonEmpty pickupDate) then
    (setErrorMessage "Please fill in all required fields." st, [])
  else if (parseFloat weight <=? Fin 0)%js then
    (setErrorMessage "Invalid weight value." st, [])
  else if negb (String.eqb origin originInputValue)
          || negb (String.eqb destination destinationInputValue) then
    (setErrorMessage "Invalid locations, please select from dropdown." st, [])
  else
    let st := setLoading true st in
    let st := setQuote None st in
    let weightInt := parseFloat weight in
    let cacheDistance := cached (getItem (routeKey origin destination) st) in
    let request :=
      Api.mkRequest "POST"
        (Api.mkBody origin destination equipmentType (toJSON weightInt)
           pickupDate cacheDistance) in
    let '(response, calls) := Api.handler dm request in
    if negb (Api.ok response) then
      let message :=
        match Api.json response with
        | Api.error message =>
            if nonEmpty message then message
            else "Failed to create quote. Server returned an error."
        | Api.quote _ => "Failed to create quote. Server returned an error."
        end in
      let st := setErrorMessage message st in
      (setLoading false st, calls)
    else
      match Api.json response with
      | Api.quote q =>
          let distance := Quote.distance q in
          let st :=
            if isNull cacheDistance && truthy distance then
              let st :=
                setItem (routeKey origin destination) (storedNumber distance) st in
              setItem (routeKey destination origin) (storedNumber distance) st
            else st in
          let updated := updatedQuotes q (quotes st) in
          let st := setItem "quotes" (storedQuotes updated) st in
          let st := setQuote (Some q) st in
          let st := setQuotes updated st in
          (setLoading false st, calls)
      | Api.error _ =>
          (* [data.quote] is undefined and reading its distance throws; the
             catch block reports it. The handler sends no such answer. *)
          let st :=
            setErrorMessage
              "Calculation failed: Cannot read properties of undefined (reading 'distance')"
              st in
          (setLoading false st, calls)
      end.

Definition matches (filters : Filters.t) (quote : Quote.t) : bool :=
  ((String.length (Filters.origin filters) =? 0)%nat
   || (nonEmpty (Quote.origin quote)
       && includes (toLowerCase (Quote.origin quote))
            (toLowerCase (Filters.origin filters))))
  && ((String.length (Filters.destination filters) =? 0)%nat
      || (nonEmpty (Quote.destination quote)
          && includes (toLowerCase (Quote.destination quote))
               (toLowerCase (Filters.destination filters))))
  && ((String.length (Filters.equipment filters) =? 0)%nat
      || String.eqb (Quote.equipmentType quote) (Filters.equipment filters)).

Definition filteredQuotes (st : State) : list Quote.t :=
  List.filter (matches (filters st)) (quotes st).

(** The setters of the form fields and of the two location inputs. *)
Definition setForm (f : Form.t) (st : State) : State :=
  mkState f (quote st) (quotes st) (filters st) (loading st) (errorMessage st)
    (localStorage st).

Definition setOrigin (v : string) (st : State) : State :=
  let f := form st in
  setForm (Form.mk v (Form.destination f) (Form.equipmentType f) (Form.weight f)
             (Form.pickupDate f) (Form.originInputValue f)
             (Form.destinationInputValue f)) st.

Definition setDestination (v : string) (st : State) : State :=
  let f := form st in
  setForm (Form.mk (Form.origin f) v (Form.equipmentType f) (Form.weight f)
             (Form.pickupDate f) (Form.originInputValue f)
             (Form.destinationInputValue f)) st.

Definition setOriginInputValue (v : string) (st : State) : State :=
  let f := form st in
  setForm (Form.mk (Form.origin f) (Form.destination f) (Form.equipmentType f)
             (Form.weight f) (Form.pickupDate f) v
             (Form.destinationInputValue f)) st.

Definition setDestinationInputValue (v : string) (st : State) : State :=
  let f := form st in
  setForm (Form.mk (Form.origin f) (Form.destination f) (Form.equipmentType f)
             (Form.weight f) (Form.pickupDate f) (Form.originInputValue f) v) st.


End HomePage.

(** ** pages/index.js over a store that can refuse a write *)

(** [localStorage.setItem] throws when the browser refuses the write (the
    quota is exceeded, storage is disabled) and leaves the store as it was.
    The writes of [handleCreateQuote] are in its try block: an exception
    ends the press in the catch block, with what was written before. *)
Module Quota.
Import JS HomePage.

(** The policy of a store: [refuses store key value] is the message of the
    exception that [setItem(key, value)] throws on this store, [None] when
    the write is accepted. *)
Definition Policy : Type := gmap string Stored -> string -> Stored -> option string.

(** [localStorage.setItem(key, value)]: the state after the call and the
    message of the exception, if one was thrown. *)
Definition setItem (refuses : Policy) (key : string) (value : Stored) (st : State)
  : State * option string :=
  match refuses (localStorage st) key value with
  | Some message => (st, Some message)
  | None => (HomePage.setItem key value st, None)
  end.

(** The next statement of a block runs only if the one before did not
    throw. *)
Definition andThen (r : State * option string)
    (next : State -> State * option string) : State * option string :=
  match r with
  | (st, Some message) => (st, Some message)
  | (st, None) => next st
  end.

(** The catch block, with [error.message]. *)
Definition onError (message : string) (st : State) : State :=
  setErrorMessage
    ("Calculation failed: "
     +:+ (if nonEmpty message then message else "An unknown error occurred."))
    st.

Definition handleCreateQuote (refuses : Policy) (dm : Api.DistanceMatrix)
    (st : State) : State * list Api.Call :=
  let st := setErrorMessage "" st in
  let '(Form.mk origin destination equipmentType weight pickupDate
          originInputValue destinationInputValue) := form st in
  if negb (nonEmpty origin) || negb (nonEmpty destination)
     || negb (nonEmpty equipmentType) || negb (nonEmpty weight)
     || negb (nonEmpty pickupDate) then
    (setErrorMessage "Please fill in all required fields." st, [])
  else if (parseFloat weight <=? Fin 0)%js then
    (setErrorMessage "Invalid weight value." st, [])
  else if negb (String.eqb origin originInputValue)
          || negb (String.eqb destination destinationInputValue) then
    (setErrorMessage "Invalid locations, please select from dropdown." st, [])
  else
    let st := setLoading true st in
    let st := setQuote None st in
    let weightInt := parseFloat weight in
    let cacheDistance := cached (getItem (routeKey origin destination) st) in
    let request :=
      Api.mkRequest "POST"
        (Api.mkBody origin destination equipmentType (toJSON weightInt)
           pickupDate cacheDistance) in
    let '(response, calls) := Api.handler dm request in
    if negb (Api.ok response) then
      let message :=
        match Api.json response with
        | Api.error message =>
            if nonEmpty message then message
            else "Failed to create quote. Server returned an error."
        | Api.quote _ => "Failed to create quote. Server returned an error."
        end in
      let st := setErrorMessage message st in
      (setLoading false st, calls)
    else
      match Api.json response with
      | Api.quote q =>
          let distance := Quote.distance q in
          let written :=
            if isNull cacheDistance && truthy distance then
              andThen
                (setItem refuses (routeKey origin destination)
                   (storedNumber distance) st)
                (setItem refuses (routeKey destination origin)
                   (storedNumber distance))
            else (st, None) in
          let updated := updatedQuotes q (quotes st) in
          let written :=
            andThen written (setItem refuses "quotes" (storedQuotes updated)) in
          match written with
          | (st, None) =>
              let st := setQuote (Some q) st in
              let st := setQuotes updated st in
              (setLoading false st, calls)
          | (st, Some message) => (setLoading false (onError message st), calls)
          end
      | Api.error _ =>
          (* [data.quote] is undefined and reading its distance throws; the
             catch block reports it. The handler sends no such answer. *)
          let st :=
            onError "Cannot read properties of undefined (reading 'distance')" st in
          (setLoading false st, calls)
      end.

End Quota.

(** ** components/QuoteHistory.js *)

Module QuoteHistory.
Import JS.

(** The component's own state. [currentPage] starts at 1 and never goes
    below. *)
Record State : Type := mkState {
  expandedIndex : option nat;
  currentPage : nat
}.

Definition itemsPerPage : nat := 5.

Definition startIndex (s : State) : nat := (currentPage s - 1) * itemsPerPage.
Definition endIndex (s : State) : nat := startIndex s + itemsPerPage.

(** The quotes on the current page; [quotes] is the prop of the component,
    the filtered quotes of the page. *)
Definition currentQuotes (quotes : list Quote.t) (s : State) : list Quote.t :=
  slice quotes (startIndex s) (endIndex s).

(** The click on the delete button of the card at position [i] of
    [currentQuotes]. *)
Definition onDeleteClick (i : nat) (s : State) (page : HomePage.State)
  : State * HomePage.State :=
  let quotes := HomePage.filteredQuotes page in
  let index := (i + startIndex s)%nat in
  let changePage := (length (currentQuotes quotes s) =? 1)%nat in
  let page := HomePage.deleteQuote index page in
  let s :=
    if decide (Some index = expandedIndex s)
    then mkState None (currentPage s) else s in
  let s :=
    if changePage
    then mkState (expandedIndex s) (Nat.max 1 (currentPage s - 1)) else s in
  (s, page).

(** [word.charAt(0).toUpperCase() + word.slice(1)]. *)
Definition capitalize (word : string) : string :=
  match word with
  | EmptyString => EmptyString
  | String c rest => String (upperChar c) rest
  end.

Definition formatEquipmentType (type : string) : string :=
  if negb (nonEmpty type) then "N/A"
  else
    join " "
      (map capitalize (split " " (toLowerCase (replaceAll "_" " " type)))).

(** [Math.ceil(quotes.length / itemsPerPage)]. *)
Definition totalPages (quotes : list Quote.t) : nat :=
  Z.to_nat
    (Qceiling (inject_Z (Z.of_nat (length quotes))
               / inject_Z (Z.of_nat itemsPerPage))).


Definition handleToggle (index : nat) (s : State) : State :=
  mkState (if decide (Some index = expandedIndex s) then None else Some index)
    (currentPage s).




Definition isHistoryEmpty (quotes : list Quote.t) (filters : Filters.t) : bool :=
  (length quotes =? 0)%nat
  && (String.length (Filters.origin filters) =? 0)%nat
  && (String.length (Filters.destination filters) =? 0)%nat
  && (String.length (Filters.equipment filters) =? 0)%nat.

(** The third test of the source reads [filters.equipment.length !== ""]:
    a number is never identical to a string, the test is always true. *)
Definition isFilteredEmpty (quotes : list Quote.t) (filters : Filters.t) : bool :=
  (length quotes =? 0)%nat
  && ((0 <? String.length (Filters.origin filters))%nat
      || (0 <? String.length (Filters.destination filters))%nat
      || true).

(** The pagination bar: whether Previous is disabled, the page buttons
    (each with its number and whether it is the current page) and whether
    Next is disabled. *)
Record Pagination : Type := mkPagination {
  previousDisabled : bool;
  pageButtons : list (nat * bool);
  nextDisabled : bool
}.

(** One card of the list: its index, its quote and whether it is expanded. *)
Definition Card : Type := (nat * Quote.t * bool)%type.

(** What the component renders. *)
Inductive View : Type :=
  | noHistory
  | history (noMatch : bool) (cards : list Card) (pagination : option Pagination).

Definition render (quotes : list Quote.t) (filters : Filters.t) (s : State) : View :=
  if isHistoryEmpty quotes filters then noHistory
  else
    let cards :=
      if negb (isFilteredEmpty quotes filters) then
        imap (fun index quote =>
                let index := (index + startIndex s)%nat in
                (index, quote, bool_decide (Some index = expandedIndex s)))
          (currentQuotes quotes s)
      else [] in
    let pagination :=
      if (0 <? totalPages quotes)%nat then
        Some (mkPagination
                (currentPage s =? 1)%nat
                (map (fun page => ((page + 1)%nat, (currentPage s =? page + 1)%nat))
                   (seq 0 (totalPages quotes)))
                (currentPage s =? totalPages quotes)%nat)
      else None in
    history (isFilteredEmpty quotes filters) cards pagination.

End QuoteHistory.

(** ** components/utils.js *)

Module Utils.
Import JS.

(** The [equipmentCharges] table, [None] for any other key. *)
Definition equipmentCharges (equipmentType : string) : option string :=
  if String.eqb equipmentType "dry_van" then Some "0%"
  else if String.eqb equipmentType "reefer" then Some "30%"
  else if String.eqb equipmentType "flatbed" then Some "15%"
  else None.

Definition getFuelSurchargePercent (weight : Number) : string :=
  if (weight <? Fin 10000)%js then "23.7%" else "55.7%".

End Utils.

(** ** components/GoogleAutocomplete.js, as the page uses it *)

Module GoogleAutocomplete.

(** The place of the widget: its formatted address, absent when the user
    confirmed a text that is no suggestion. An absent address is the empty
    string of the form. *)
Record Place : Type := mkPlace {
  formatted_address : option string
}.

(** [handlePlaceChange]: with the widget loaded, the place goes to
    [onPlaceChanged] and its address into the input. *)
Definition handlePlaceChange (autocomplete : bool) (place : Place)
    (onPlaceChanged : Place -> HomePage.State -> HomePage.State)
    (setInputValue : string -> HomePage.State -> HomePage.State)
    (st : HomePage.State) : HomePage.State :=
  if autocomplete then
    let st := onPlaceChanged place st in
    setInputValue (default "" (formatted_address place)) st
  else st.

(** The two instances of the page: the origin and the destination input. *)
Definition originPlaceChange (autocomplete : bool) (place : Place)
    (st : HomePage.State) : HomePage.State :=
  handlePlaceChange autocomplete place
    (fun place => HomePage.setOrigin (default "" (formatted_address place)))
    HomePage.setOriginInputValue st.

Definition destinationPlaceChange (autocomplete : bool) (place : Place)
    (st : HomePage.State) : HomePage.State :=
  handlePlaceChange autocomplete place
    (fun place => HomePage.setDestination (default "" (formatted_address place)))
    HomePage.setDestinationInputValue st.

(** Typing in the input: [onChange] sets the input value alone. *)
Definition originInputChange (text : string) (st : HomePage.State)
  : HomePage.State := HomePage.setOriginInputValue text st.

Definition destinationInputChange (text : string) (st : HomePage.State)
  : HomePage.State := HomePage.setDestinationInputValue text st.

End GoogleAutocomplete.

(** ** Vocabulary of the statements *)

Import JS.

(** [a] is the finite number [q]. *)
Definition denotes (a : Number) (q : Q) : Prop :=
  match a with
  | Fin p => p == q
  | NaN => False
  end.

(** The equipment types of the quote form. *)
Definition recognized (equipmentType : string) : Prop :=
  equipmentType = "dry_van" \/ equipmentType = "reefer"
  \/ equipmentType = "flatbed".

(** The per-equipment multiplier of the rate card. *)
Definition rateCardMultiplier (equipmentType : string) : option Q :=
  if String.eqb equipmentType "dry_van" then Some 0.0%Q
  else if String.eqb equipmentType "reefer" then Some 0.30%Q
  else if String.eqb equipmentType "flatbed" then Some 0.15%Q
  else None.

(** The fuel-surcharge rate of the rate card: 0.237 below 10000 lb, 0.557
    from 10000 lb on. *)
Definition rateCardFuel (weightLb : Q) : Q :=
  if Qlt_le_dec weightLb 10000 then 0.237%Q else 0.557%Q.

Inductive InvalidInputError : Type := invalidInput.

(** The contract of the rate calculator in the words of the specification,
    to compare [Api.calculateTotal] with: an unrecognized equipment type or
    a non-positive weight is an [InvalidInputError], any other input has the
    breakdown of the rate card. *)
Definition computeRate_contract (distanceKm weightLb : Q) (equipmentType : string)
  : Breakdown.t + InvalidInputError :=
  match rateCardMultiplier equipmentType with
  | None => inr invalidInput
  | Some multiplier =>
      if Qle_bool weightLb 0 then inr invalidInput
      else
        let baseRate := (1.616 * distanceKm)%Q in
        let equipmentCharge := (baseRate * multiplier)%Q in
        let fuelSurcharge :=
          ((baseRate + equipmentCharge) * rateCardFuel weightLb)%Q in
        let weightFactor := (Qmax 0 (weightLb - 10000) / 100 * 0.10)%Q in
        inl {| Breakdown.total :=
                 Fin (baseRate + equipmentCharge + fuelSurcharge + weightFactor);
               Breakdown.baseRate := Fin baseRate;
               Breakdown.weightFactor := Fin weightFactor;
               Breakdown.fuelSurcharge := Fin fuelSurcharge;
               Breakdown.equipmentCharge := Fin equipmentCharge |}
  end.

(** The validations of a quote creation: every field of the form is filled
    in, the weight reads as a number > 0, and the two locations are the ones
    last confirmed in the location inputs. *)
Definition formFilled (f : Form.t) : bool :=
  nonEmpty (Form.origin f) && nonEmpty (Form.destination f)
  && nonEmpty (Form.equipmentType f) && nonEmpty (Form.weight f)
  && nonEmpty (Form.pickupDate f).

Definition weightPositive (f : Form.t) : bool :=
  (parseFloat (Form.weight f) >? Fin 0)%js.

Definition locationsConfirmed (f : Form.t) : bool :=
  String.eqb (Form.origin f) (Form.originInputValue f)
  && String.eqb (Form.destination f) (Form.destinationInputValue f).

Definition accepted (f : Form.t) : bool :=
  formFilled f && weightPositive f && locationsConfirmed f.

(** The user fills in the form (the setters of the form fields). *)
Definition withForm (f : Form.t) (st : HomePage.State) : HomePage.State :=
  HomePage.mkState f (HomePage.quote st) (HomePage.quotes st)
    (HomePage.filters st) (HomePage.loading st) (HomePage.errorMessage st)
    (HomePage.localStorage st).

(** The distance cache: the entries of [localStorage] other than the
    ledger. *)
Definition distanceCache (st : HomePage.State) : gmap string HomePage.Stored :=
  delete "quotes" (HomePage.localStorage st).

(** The ledger as persisted. *)
Definition persistedLedger (st : HomePage.State) : option HomePage.Stored :=
  HomePage.localStorage st !! "quotes".

(** The time value of the pickup date of a quote, which [sortQuotes]
    compares. *)
Definition pickupTime (q : Quote.t) : Number := Date (Quote.pickupDate q).

(** The pickup date of the quote is a valid date. *)
Definition hasDate (q : Quote.t) : bool :=
  match pickupTime q with
  | Fin _ => true
  | NaN => false
  end.

(** The quote is picked up at the time [t]. *)
Definition pickedUpAt (t : Q) (q : Quote.t) : bool :=
  (pickupTime q ==? Fin t)%js.

(** [a] is picked up no later than [b]. *)
Definition notLater (a b : Quote.t) : Prop :=
  (pickupTime a <=? pickupTime b)%js = true.

(** No two quotes of the list have the same pickup date. *)
Fixpoint distinctDates (l : list Quote.t) : bool :=
  match l with
  | [] => true
  | q :: l' =>
      forallb (fun q' => negb (pickupTime q ==? pickupTime q')%js) l'
      && distinctDates l'
  end.

(** The ledger after the quotes [qs] were created in that order, starting
    from an empty ledger. *)
Definition ledgerAfter (qs : list Quote.t) : list Quote.t :=
  fold_left (fun ledger q => HomePage.updatedQuotes q ledger) qs [].

(** The page when it opens in a fresh browser: the initial values of its
    state and an empty [localStorage]. *)
Definition initial : HomePage.State :=
  HomePage.mkState (Form.mk "" "" "dry_van" "" "" "" "") None []
    (Filters.mk "" "" "") false "" ∅.

(** The user fills in and submits the forms one after the other. *)
Definition createAll (dm : Api.DistanceMatrix) (forms : list Form.t)
    (st : HomePage.State) : HomePage.State :=
  fold_left (fun st f => fst (HomePage.handleCreateQuote dm (withForm f st)))
    forms st.

(** The quote that the handler answers for the form [f] when the
    collaborator reports [metres], for the examples. *)
Definition quoteOf (f : Form.t) (metres : Z) : Quote.t :=
  let distance := (ofZ metres / Fin 1000)%js in
  let weight := parseFloat (Form.weight f) in
  let b := Api.calculateTotal distance weight (Form.equipmentType f) in
  Quote.mk (Form.origin f) (Form.destination f) (Form.equipmentType f)
    (toJSON weight) (Form.pickupDate f) distance (Api.days distance)
    (Breakdown.total b) (Breakdown.baseRate b) (Breakdown.weightFactor b)
    (Breakdown.fuelSurcharge b) (Breakdown.equipmentCharge b).

(** ** The page as a whole *)

Module App.

(** The active tab, ['quote'] or ['history']. *)
Inductive Tab : Type := quoteTab | historyTab.


(** The page with its active tab and the state of the history component,
    which is mounted while the history tab is shown. *)
Record State : Type := mk {
  activeTab : Tab;
  history : QuoteHistory.State;
  page : HomePage.State
}.











End App.

(** The ledger is sorted by pickup date, every date being valid. *)
Definition ledgerSorted (l : list Quote.t) : Prop :=
  forallb hasDate l = true /\ StronglySorted notLater l.


(** The current page of the history is the first page or a page that
    exists. *)
Definition onExistingPage (s : QuoteHistory.State) (quotes : list Quote.t) : Prop :=
  (1 <= QuoteHistory.currentPage s)%nat
  /\ (QuoteHistory.currentPage s = 1%nat
      \/ (QuoteHistory.currentPage s <= QuoteHistory.totalPages quotes)%nat).



(** [a] is a finite amount that is not negative. *)
Definition nonNegative (a : Number) : Prop :=
  match a with
  | Fin q => (0 <= q)%Q
  | NaN => False
  end.

(** [a] and [b] are finite and [a <= b]. *)
Definition atMost (a b : Number) : Prop :=
  match a, b with
  | Fin p, Fin q => (p <= q)%Q
  | _, _ => False
  end.

(** The rate a percentage label stands for: ["23.7%"] is 0.237. *)
Definition percentage (label : string) : Number :=
  (parseFloat label / Fin 100)%js.

(** A text in title case, read in one pass: a letter is made upper case at
    the start ([start]) and after each space. *)
Fixpoint titleCase (start : bool) (s : string) : string :=
  match s with
  | EmptyString => EmptyString
  | String c s' =>
      String (if start then upperChar c else c) (titleCase (Ascii.eqb c " ") s')
  end.

(** The fields the handler requires are present in the body. *)
Definition bodyFilled (b : Api.Body) : bool :=
  nonEmpty (Api.origin b) && nonEmpty (Api.destination b)
  && nonEmpty (Api.equipmentType b) && ToBoolean (Api.weight b)
  && nonEmpty (Api.pickupDate b).

(** The binary64 number [x] is finite and at most [eps] away from [q]. *)
Definition within (eps : Q) (x : float) (q : Q) : Prop :=
  match Binary64.exact x with
  | Some v => (Qabs (v - q) <= eps)%Q
  | None => False
  end.

(** Two texts that differ at most in the case of their ASCII letters. *)
Definition sameLetters (a b : string) : Prop := toLowerCase a = toLowerCase b.

(** Two quotes with the same equipment type whose origins and destinations
    differ at most in the case of their letters. *)
Definition sameRoute (q q' : Quote.t) : Prop :=
  sameLetters (Quote.origin q) (Quote.origin q')
  /\ sameLetters (Quote.destination q) (Quote.destination q')
  /\ Quote.equipmentType q = Quote.equipmentType q'.

(** * Properties *)

(** ** Numbers *)

Section NumberFacts.
Local Open Scope Q_scope.

Lemma Qle_bool_false (x y : Q) : Qle_bool x y = false <-> y < x.
Proof.
  split.
  - intros H. apply Qnot_le_lt. intros Hle.
    apply Qle_bool_iff in Hle. congruence.
  - intros H. destruct (Qle_bool x y) eqn:E; [| reflexivity].
    apply Qle_bool_iff in E. exfalso. exact (Qlt_not_le _ _ H E).
Qed.

Lemma lt_Fin (p q : Q) : JS.lt (Fin p) (Fin q) = true <-> p < q.
Proof.
  unfold JS.lt. rewrite negb_true_iff. apply Qle_bool_false.
Qed.


Lemma truthy_Fin (q : Q) : truthy (Fin q) = true <-> ~ q == 0.
Proof.
  unfold truthy. rewrite negb_true_iff, <- Qeq_bool_iff.
  destruct (Qeq_bool q 0); split; intros H; try discriminate; auto.
  exfalso; auto.
Qed.

Lemma recognized_multiplier (e : string) :
  recognized e <-> exists m, rateCardMultiplier e = Some m.
Proof.
  unfold recognized, rateCardMultiplier. split.
  - intros [-> | [-> | ->]]; eexists; reflexivity.
  - intros [m H].
    destruct (String.eqb_spec e "dry_van"); [now left |].
    destruct (String.eqb_spec e "reefer"); [now right; left |].
    destruct (String.eqb_spec e "flatbed"); [now right; right |].
    discriminate.
Qed.

(** The table of the code agrees with the rate card. *)
Lemma multipliers_rateCard (e : string) :
  match rateCardMultiplier e with
  | Some m => exists m', Api.multipliers e = number (Fin m') /\ m' == m
  | None => Api.multipliers e = undefined
  end.
Proof.
  unfold rateCardMultiplier, Api.multipliers.
  destruct (String.eqb e "dry_van"); [eexists; split; reflexivity |].
  destruct (String.eqb e "reefer"); [eexists; split; reflexivity |].
  destruct (String.eqb e "flatbed"); [eexists; split; reflexivity |].
  reflexivity.
Qed.
End NumberFacts.

(** ** The rate calculator *)

Section RateCalculator.
Local Open Scope Q_scope.
#[local] Set Warnings "-inexact-float".

(** The four components are finite whenever the inputs are finite and the
    equipment type is in the table. *)
Lemma calculateTotal_finite (distance weight : Q) (equipmentType : string) :
  recognized equipmentType ->
  exists baseRate equipmentCharge fuelSurcharge weightFactor : Q,
    Api.calculateTotal (Fin distance) (Fin weight) equipmentType =
    {| Breakdown.total :=
         Fin (baseRate + equipmentCharge + fuelSurcharge + weightFactor);
       Breakdown.baseRate := Fin baseRate;
       Breakdown.weightFactor := Fin weightFactor;
       Breakdown.fuelSurcharge := Fin fuelSurcharge;
       Breakdown.equipmentCharge := Fin equipmentCharge |}.
Proof.
  intros [-> | [-> | ->]]; unfold Api.calculateTotal; cbn;
    destruct (Qle_bool 10000 weight), (Qle_bool weight 10000); cbn;
    do 4 eexists; reflexivity.
Qed.

(** C4. For a distance >= 0, a weight > 0 and a recognized equipment type,
    the breakdown of [calculateTotal] has four finite components and its
    total is exactly their sum, baseRate + equipmentCharge + fuelSurcharge
    + weightFactor, with no rounding in between. *)
Theorem calculateTotal_total_is_sum (distance weight : Q) (equipmentType : string) :
  0 <= distance -> 0 < weight -> recognized equipmentType ->
  exists baseRate equipmentCharge fuelSurcharge weightFactor : Q,
    let b := Api.calculateTotal (Fin distance) (Fin weight) equipmentType in
    Breakdown.baseRate b = Fin baseRate /\
    Breakdown.equipmentCharge b = Fin equipmentCharge /\
    Breakdown.fuelSurcharge b = Fin fuelSurcharge /\
    Breakdown.weightFactor b = Fin weightFactor /\
    Breakdown.total b =
      Fin (baseRate + equipmentCharge + fuelSurcharge + weightFactor).
Proof.
  intros _ _ He.
  destruct (calculateTotal_finite distance weight equipmentType He)
    as (b & c & f & k & E).
  exists b, c, f, k. rewrite E. cbn. repeat split; reflexivity.
Qed.

Lemma calculateTotal_total_is_sum_witness :
  exists baseRate equipmentCharge fuelSurcharge weightFactor : Q,
    let b := Api.calculateTotal (Fin 100) (Fin 5000) "dry_van" in
    Breakdown.baseRate b = Fin baseRate /\
    Breakdown.equipmentCharge b = Fin equipmentCharge /\
    Breakdown.fuelSurcharge b = Fin fuelSurcharge /\
    Breakdown.weightFactor b = Fin weightFactor /\
    Breakdown.total b =
      Fin (baseRate + equipmentCharge + fuelSurcharge + weightFactor).
Proof.
  apply (calculateTotal_total_is_sum 100 5000 "dry_van").
  - discriminate.
  - reflexivity.
  - left; reflexivity.
Defined.

(** The steps of [calculateTotal] on finite inputs, for an equipment type
    of the rate card. *)
Lemma calculateTotal_steps (distance weight multiplier : Q) (equipmentType : string) :
  rateCardMultiplier equipmentType = Some multiplier ->
  let b := Api.calculateTotal (Fin distance) (Fin weight) equipmentType in
  let baseRate := 1.616 * distance in
  let equipmentCharge := baseRate * multiplier in
  denotes (Breakdown.baseRate b) baseRate /\
  denotes (Breakdown.equipmentCharge b) equipmentCharge /\
  denotes (Breakdown.fuelSurcharge b)
    ((baseRate + equipmentCharge) * rateCardFuel weight) /\
  denotes (Breakdown.weightFactor b) (Qmax 0 (weight - 10000) / 100 * 0.10).
Proof.
  intros Hm. pose proof (multipliers_rateCard equipmentType) as Ht.
  rewrite Hm in Ht. destruct Ht as (m' & Ht & Em).
  set (factor := Qmax 0 (weight - 10000) / 100 * 0.10).
  assert (Hfactor : factor ==
            if Qle_bool weight 10000 then 0 else (weight - 10000) / 100 * 0.1).
  { subst factor. destruct (Qle_bool weight 10000) eqn:E.
    - apply Qle_bool_iff in E.
      assert (Qmax 0 (weight - 10000) == 0) as Hmax.
      { apply Q.max_l, (Qplus_le_l _ _ 10000). ring_simplify. exact E. }
      rewrite Hmax. reflexivity.
    - apply Qle_bool_false in E.
      assert (Qmax 0 (weight - 10000) == weight - 10000) as Hmax.
      { apply Q.max_r, (Qplus_le_l _ _ 10000). ring_simplify.
        now apply Qlt_le_weak. }
      rewrite Hmax. apply Qmult_comp; reflexivity. }
  unfold Api.calculateTotal. rewrite Ht.
  cbn [Breakdown.baseRate Breakdown.equipmentCharge Breakdown.fuelSurcharge
       Breakdown.weightFactor ToNumber].
  split; [reflexivity |].
  split; [cbn; now rewrite Em |].
  split.
  - unfold rateCardFuel, JS.lt.
    destruct (Qlt_le_dec weight 10000) as [Hlt | Hge].
    + apply Qle_bool_false in Hlt. rewrite Hlt. cbn. now rewrite Em.
    + apply Qle_bool_iff in Hge. rewrite Hge. cbn. now rewrite Em.
  - clearbody factor. unfold JS.gt, JS.lt.
    apply Qeq_sym in Hfactor.
    destruct (Qle_bool weight 10000); exact Hfactor.
Qed.

(** C5 (amended). [calculateTotal] uses the stated constants and steps:
    baseRate = 1.616 x distance; equipmentCharge = baseRate x multiplier,
    with dry_van 0.0, reefer 0.30, flatbed 0.15; fuelSurcharge = (baseRate +
    equipmentCharge) x (0.237 if weight < 10000 else 0.557); weightFactor =
    max(0, weight - 10000) / 100 x 0.10, so that a weight of exactly 10000
    has the 0.557 fuel rate and a zero weight factor. On (100, 15000,
    "reefer") the code, which computes in binary64, yields baseRate
    161.60000000000002, equipmentCharge 48.480000000000004, fuelSurcharge
    117.01456000000003, weightFactor 5 and total 332.09456000000006: the
    figures 161.6, 48.48, 117.01456, 5 and 332.09456 up to a rounding error
    below 1e-12. *)
Theorem calculateTotal_rate_card (distance weight multiplier : Q) (equipmentType : string) :
  rateCardMultiplier equipmentType = Some multiplier ->
  let baseRate := 1.616 * distance in
  let equipmentCharge := baseRate * multiplier in
  (let b := Api.calculateTotal (Fin distance) (Fin weight) equipmentType in
   denotes (Breakdown.baseRate b) baseRate /\
   denotes (Breakdown.equipmentCharge b) equipmentCharge /\
   denotes (Breakdown.fuelSurcharge b)
     ((baseRate + equipmentCharge) * rateCardFuel weight) /\
   denotes (Breakdown.weightFactor b) (Qmax 0 (weight - 10000) / 100 * 0.10)) /\
  (let b := Api.calculateTotal (Fin distance) (Fin 10000) equipmentType in
   denotes (Breakdown.fuelSurcharge b) ((baseRate + equipmentCharge) * 0.557) /\
   denotes (Breakdown.weightFactor b) 0) /\
  (rateCardMultiplier "dry_van" = Some 0.0 /\
   rateCardMultiplier "reefer" = Some 0.30 /\
   rateCardMultiplier "flatbed" = Some 0.15) /\
  (let b := Binary64.calculateTotal 100 15000 "reefer" in
   (Binary64.baseRate b = 161.60000000000002%float /\
    Binary64.equipmentCharge b = 48.480000000000004%float /\
    Binary64.fuelSurcharge b = 117.01456000000003%float /\
    Binary64.weightFactor b = 5%float /\
    Binary64.total b = 332.09456000000006%float) /\
   within 1e-12 (Binary64.baseRate b) 161.6 /\
   within 1e-12 (Binary64.equipmentCharge b) 48.48 /\
   within 1e-12 (Binary64.fuelSurcharge b) 117.01456 /\
   within 0 (Binary64.weightFactor b) 5 /\
   within 1e-12 (Binary64.total b) 332.09456).
Proof.
  intros Hm baseRate equipmentCharge.
  split; [exact (calculateTotal_steps distance weight multiplier _ Hm) |].
  split.
  - destruct (calculateTotal_steps distance 10000 multiplier _ Hm)
      as (_ & _ & Hf & Hw).
    split; [exact Hf | exact Hw].
  - split; [repeat split |]. vm_compute. repeat split; discriminate.
Qed.

Lemma calculateTotal_rate_card_witness :
  rateCardMultiplier "flatbed" = Some 0.15 /\
  let baseRate := 1.616 * 250 in
  let equipmentCharge := baseRate * 0.15 in
  let b := Api.calculateTotal (Fin 250) (Fin 9999) "flatbed" in
  denotes (Breakdown.baseRate b) baseRate /\
  denotes (Breakdown.equipmentCharge b) equipmentCharge /\
  denotes (Breakdown.fuelSurcharge b)
    ((baseRate + equipmentCharge) * rateCardFuel 9999) /\
  denotes (Breakdown.weightFactor b) (Qmax 0 (9999 - 10000) / 100 * 0.10).
Proof.
  split; [reflexivity |].
  exact (proj1 (calculateTotal_rate_card 250 9999 0.15 "flatbed" eq_refl)).
Defined.

(** The figures of the example that the code does not produce: on (100,
    15000, "reefer") the fuel surcharge is not 117.02896 and the total is
    not 332.10896, before rounding and in binary64, where both are more
    than 0.01 away. *)
Lemma calculateTotal_reefer_example_differs :
  let b := Api.calculateTotal (Fin 100) (Fin 15000) "reefer" in
  let b64 := Binary64.calculateTotal 100 15000 "reefer" in
  (~ denotes (Breakdown.fuelSurcharge b) 117.02896 /\
   ~ denotes (Breakdown.total b) 332.10896) /\
  Binary64.fuelSurcharge b64 <> 117.02896%float /\
  Binary64.total b64 <> 332.10896%float /\
  ~ within 0.01 (Binary64.fuelSurcharge b64) 117.02896 /\
  ~ within 0.01 (Binary64.total b64) 332.10896.
Proof.
  split; [split; intros H; vm_compute in H; discriminate H |].
  vm_compute. repeat split; intros H;
    first [discriminate H | apply H; reflexivity].
Qed.

(** On the inputs that the contract accepts, the code returns the
    breakdown of the contract. *)
Lemma calculateTotal_meets_contract (distance weight : Q) (equipmentType : string)
    (expected : Breakdown.t) :
  computeRate_contract distance weight equipmentType = inl expected ->
  let b := Api.calculateTotal (Fin distance) (Fin weight) equipmentType in
  exists baseRate equipmentCharge fuelSurcharge weightFactor total : Q,
    expected =
      {| Breakdown.total := Fin total;
         Breakdown.baseRate := Fin baseRate;
         Breakdown.weightFactor := Fin weightFactor;
         Breakdown.fuelSurcharge := Fin fuelSurcharge;
         Breakdown.equipmentCharge := Fin equipmentCharge |} /\
    denotes (Breakdown.baseRate b) baseRate /\
    denotes (Breakdown.equipmentCharge b) equipmentCharge /\
    denotes (Breakdown.fuelSurcharge b) fuelSurcharge /\
    denotes (Breakdown.weightFactor b) weightFactor /\
    denotes (Breakdown.total b) total.
Proof.
  unfold computeRate_contract.
  destruct (rateCardMultiplier equipmentType) as [m |] eqn:Hm; [| discriminate].
  destruct (Qle_bool weight 0); [discriminate |].
  intros H. injection H as <-. do 5 eexists. split; [reflexivity |].
  destruct (calculateTotal_steps distance weight m equipmentType Hm)
    as (Hb & He & Hf & Hw).
  destruct (calculateTotal_finite distance weight equipmentType) as
    (b & c & f & k & E); [apply recognized_multiplier; eauto |].
  rewrite E in *. cbn [Breakdown.baseRate Breakdown.equipmentCharge
    Breakdown.fuelSurcharge Breakdown.weightFactor Breakdown.total denotes] in *.
  repeat split; try assumption.
  rewrite Hb, He, Hf, Hw. reflexivity.
Qed.

(** C3 (amended). [calculateTotal] has no side effects and never fails, it
    returns a breakdown for every input. With an equipment type outside the
    table the equipment charge, the fuel surcharge and the total are [NaN];
    with a non-positive weight it returns the breakdown of the rate card at
    the fuel rate 0.237 with a zero weight factor. *)
Theorem calculateTotal_invalid_input
    (distance weight nonPositive multiplier : Q) (unknown known : string) :
  rateCardMultiplier unknown = None ->
  rateCardMultiplier known = Some multiplier ->
  nonPositive <= 0 ->
  (let b := Api.calculateTotal (Fin distance) (Fin weight) unknown in
   denotes (Breakdown.baseRate b) (1.616 * distance) /\
   Breakdown.equipmentCharge b = NaN /\
   Breakdown.fuelSurcharge b = NaN /\
   Breakdown.total b = NaN) /\
  (let b := Api.calculateTotal (Fin distance) (Fin nonPositive) known in
   let baseRate := 1.616 * distance in
   let equipmentCharge := baseRate * multiplier in
   let fuelSurcharge := (baseRate + equipmentCharge) * 0.237 in
   denotes (Breakdown.baseRate b) baseRate /\
   denotes (Breakdown.equipmentCharge b) equipmentCharge /\
   denotes (Breakdown.fuelSurcharge b) fuelSurcharge /\
   denotes (Breakdown.weightFactor b) 0 /\
   denotes (Breakdown.total b) (baseRate + equipmentCharge + fuelSurcharge + 0)).
Proof.
  intros Hu Hk Hw. split.
  - pose proof (multipliers_rateCard unknown) as Ht. rewrite Hu in Ht.
    unfold Api.calculateTotal. rewrite Ht. cbn.
    split; [reflexivity |].
    destruct (Qle_bool 10000 weight), (Qle_bool weight 10000); repeat split.
  - assert (Hlow : Qle_bool nonPositive 10000 = true).
    { apply Qle_bool_iff. eapply Qle_trans; [exact Hw | discriminate]. }
    assert (Hhigh : Qle_bool 10000 nonPositive = false).
    { apply Qle_bool_false. eapply Qle_lt_trans; [exact Hw | reflexivity]. }
    pose proof (multipliers_rateCard known) as Ht. rewrite Hk in Ht.
    destruct Ht as (m' & Ht & Em).
    unfold Api.calculateTotal, JS.gt, JS.lt. rewrite Ht, Hlow, Hhigh.
    cbv zeta. cbn -[Qmult Qplus].
    split; [reflexivity |].
    split; [now rewrite Em |].
    split; [now rewrite Em |].
    split; [reflexivity |].
    now rewrite Em.
Qed.

Lemma calculateTotal_invalid_input_witness :
  (rateCardMultiplier "tanker" = None /\
   rateCardMultiplier "dry_van" = Some 0.0 /\ -5 <= 0) /\
  Breakdown.total (Api.calculateTotal (Fin 100) (Fin 5000) "tanker") = NaN /\
  denotes (Breakdown.total (Api.calculateTotal (Fin 100) (Fin (-5)) "dry_van"))
    (1.616 * 100 + 1.616 * 100 * 0.0
     + (1.616 * 100 + 1.616 * 100 * 0.0) * 0.237 + 0).
Proof.
  split; [repeat split; discriminate |].
  destruct (calculateTotal_invalid_input 100 5000 (-5) 0.0 "tanker" "dry_van"
              eq_refl eq_refl ltac:(discriminate))
    as ((_ & _ & _ & Hn) & (_ & _ & _ & _ & Ht)).
  exact (conj Hn Ht).
Defined.

(** Where the contract asks for an [InvalidInputError] the code returns a
    breakdown: a finite one for the weight -5, one with a [NaN] total for the
    equipment type "tanker"; the handler answers both with a quote. *)
Lemma calculateTotal_returns_on_invalid_input :
  computeRate_contract 100 (-5) "dry_van" = inr invalidInput /\
  computeRate_contract 100 5000 "tanker" = inr invalidInput /\
  denotes (Breakdown.total (Api.calculateTotal (Fin 100) (Fin (-5)) "dry_van"))
    199.8992 /\
  Breakdown.total (Api.calculateTotal (Fin 100) (Fin 5000) "tanker") = NaN /\
  Api.status
    (fst (Api.handler (fun _ _ => Api.FetchError)
            (Api.mkRequest "POST"
               (Api.mkBody "Toronto, ON" "Ottawa, ON" "dry_van"
                  (number (Fin (-5))) "2025-03-01" (number (Fin 100))))))
    = 201%Z /\
  Api.status
    (fst (Api.handler (fun _ _ => Api.FetchError)
            (Api.mkRequest "POST"
               (Api.mkBody "Toronto, ON" "Ottawa, ON" "tanker"
                  (number (Fin 5000)) "2025-03-01" (number (Fin 100))))))
    = 201%Z.
Proof.
  repeat split; vm_compute; reflexivity.
Qed.

End RateCalculator.

(** ** Travel duration *)

Section Duration.
Local Open Scope Q_scope.

Lemma days_Fin (distance : Q) :
  Api.days (Fin distance) =
  Fin (inject_Z (if Qeq_bool distance 0 then 1 else Qceiling (distance / 541))).
Proof.
  unfold Api.days, Api.maximumDayTravel, JS.looseEq.
  destruct (Qeq_bool distance 0); reflexivity.
Qed.

Lemma Qdiv_541 (x : Q) : x / 541 * 541 == x.
Proof. field. Qed.

(** C9. For a resolved distance d >= 0 the [days] of the quote is the
    integer n with n = 1 when d = 0 and n = ceil(d / 541) otherwise: n >= 1,
    d <= 541 n, and 541 (n - 1) < d unless d = 0. It is 1 for d = 0, 1 for
    d = 541 and 2 for d = 542. *)
Theorem days_of_distance (distance : Q) :
  0 <= distance ->
  exists n : Z,
    Api.days (Fin distance) = Fin (inject_Z n) /\
    n = (if Qeq_bool distance 0 then 1 else Qceiling (distance / 541))%Z /\
    (1 <= n)%Z /\
    distance <= inject_Z n * 541 /\
    (distance == 0 \/ inject_Z (n - 1) * 541 < distance) /\
    Api.days (Fin 0) = Fin 1 /\
    Api.days (Fin 541) = Fin 1 /\
    Api.days (Fin 542) = Fin 2.
Proof.
  intros Hd.
  exists (if Qeq_bool distance 0 then 1 else Qceiling (distance / 541))%Z.
  split; [apply days_Fin |]. split; [reflexivity |].
  destruct (Qeq_bool distance 0) eqn:E.
  - apply Qeq_bool_iff in E.
    split; [lia |]. split; [rewrite E; discriminate |].
    split; [now left |]. repeat split.
  - assert (Hpos : 0 < distance).
    { apply Qle_lteq in Hd. destruct Hd as [Hd | Hd]; [exact Hd |].
      symmetry in Hd. apply Qeq_bool_iff in Hd. congruence. }
    pose proof (Qle_ceiling (distance / 541)) as Hup.
    pose proof (Qceiling_lt (distance / 541)) as Hlow.
    set (n := Qceiling (distance / 541)) in *.
    assert (Hup' : distance <= inject_Z n * 541).
    { apply (Qmult_le_r _ _ 541) in Hup; [| reflexivity].
      now rewrite Qdiv_541 in Hup. }
    assert (Hlow' : inject_Z (n - 1) * 541 < distance).
    { apply (Qmult_lt_r _ _ 541) in Hlow; [| reflexivity].
      now rewrite Qdiv_541 in Hlow. }
    split.
    { destruct (Z_lt_le_dec n 1) as [Hn | Hn]; [| exact Hn]. exfalso.
      assert (Hn0 : inject_Z n <= 0).
      { change 0 with (inject_Z 0). rewrite <- Zle_Qle. lia. }
      apply (Qlt_not_le _ _ Hpos). eapply Qle_trans; [exact Hup' |].
      rewrite <- (Qmult_0_l 541). apply Qmult_le_r; [reflexivity | exact Hn0]. }
    split; [exact Hup' |]. split; [now right |]. repeat split.
Qed.

Lemma days_of_distance_witness :
  exists n : Z,
    Api.days (Fin 1082.5) = Fin (inject_Z n) /\
    n = (if Qeq_bool 1082.5 0 then 1 else Qceiling (1082.5 / 541))%Z /\
    (1 <= n)%Z /\
    1082.5 <= inject_Z n * 541 /\
    (1082.5 == 0 \/ inject_Z (n - 1) * 541 < 1082.5) /\
    Api.days (Fin 0) = Fin 1 /\
    Api.days (Fin 541) = Fin 1 /\
    Api.days (Fin 542) = Fin 2.
Proof.
  apply (days_of_distance 1082.5). discriminate.
Defined.

(** The quote of a 201 answer carries [days] of its own distance. *)
Lemma handler_days (dm : Api.DistanceMatrix) (req : Api.Request) (q : Quote.t)
    (calls : list Api.Call) :
  Api.handler dm req = (Api.mkResponse 201 (Api.quote q), calls) ->
  Quote.days q = Api.days (Quote.distance q).
Proof.
  unfold Api.handler. destruct (negb _); [discriminate |].
  destruct (Api.body req) as [o d e w p c].
  destruct (_ || _); [discriminate |].
  destruct (if isNull c then _ else _) as [[| | n] cs]; try discriminate.
  intros H. injection H as <- _. reflexivity.
Qed.

End Duration.

(** ** Quote creation *)

Section QuoteCreation.
Import HomePage.

Lemma routeKey_not_quotes (a b : string) : routeKey a b <> "quotes".
Proof.
  unfold routeKey. intros H.
  do 7 (destruct a as [| ? a]; cbn in H;
        [discriminate H | try discriminate H; try injection H as _ H]).
Qed.


(** The handler makes no request when a field of the body is missing. *)
Lemma handler_missing_field (dm : Api.DistanceMatrix) (m o d e p : string)
    (w c : Value) :
  nonEmpty o && nonEmpty d && nonEmpty e && ToBoolean w && nonEmpty p = false ->
  snd (Api.handler dm (Api.mkRequest m (Api.mkBody o d e w p c))) = [] /\
  Api.ok (fst (Api.handler dm (Api.mkRequest m (Api.mkBody o d e w p c)))) = false.
Proof.
  intros H. unfold Api.handler. cbn [Api.method Api.body].
  destruct (negb (m =? "POST")%string); [split; reflexivity |].
  destruct (nonEmpty o), (nonEmpty d), (nonEmpty e), (ToBoolean w), (nonEmpty p);
    try discriminate H; split; reflexivity.
Qed.

(** With every field present the handler resolves the distance, from the
    hint of the body when there is one. *)
Lemma handler_fields_present (dm : Api.DistanceMatrix) (o d e p : string)
    (w c : Value) :
  nonEmpty o = true -> nonEmpty d = true -> nonEmpty e = true ->
  ToBoolean w = true -> nonEmpty p = true ->
  Api.handler dm (Api.mkRequest "POST" (Api.mkBody o d e w p c)) =
  let '(distance, calls) :=
    if isNull c then Api.getDistance dm o d
    else (number (parseFloatValue c), []) in
  match distance with
  | number distance =>
      let b := Api.calculateTotal distance (parseFloatValue w) e in
      (Api.mkResponse 201 (Api.quote
         (Quote.mk o d e w p distance (Api.days distance)
            (Breakdown.total b) (Breakdown.baseRate b)
            (Breakdown.weightFactor b) (Breakdown.fuelSurcharge b)
            (Breakdown.equipmentCharge b))), calls)
  | _ =>
      (Api.mkResponse 400
         (Api.error ("No route between " +:+ o +:+ " and " +:+ d
                     +:+ " available.")), calls)
  end.
Proof.
  intros Ho Hd He Hw Hp. unfold Api.handler. cbn [Api.method Api.body].
  rewrite Ho, Hd, He, Hw, Hp. cbn [negb orb String.eqb Ascii.eqb Bool.eqb].
  destruct (if isNull c then _ else _) as [[| | n] calls]; reflexivity.
Qed.

(** At most one request to the collaborator per handled request. *)
Lemma handler_at_most_one_call (dm : Api.DistanceMatrix) (req : Api.Request) :
  (length (snd (Api.handler dm req)) <= 1)%nat.
Proof.
  unfold Api.handler. destruct (negb _); [cbn; lia |].
  destruct (Api.body req) as [o d e w p c].
  destruct (_ || _); [cbn; lia |].
  assert (H : (length (snd (if isNull c then Api.getDistance dm o d
                            else (number (parseFloatValue c), []))) <= 1)%nat).
  { destruct (isNull c); cbn; lia. }
  destruct (if isNull c then _ else _) as [[| | n] calls]; exact H.
Qed.

Lemma accepted_inv (f : Form.t) :
  accepted f = true ->
  exists w : Q,
    nonEmpty (Form.origin f) = true /\ nonEmpty (Form.destination f) = true /\
    nonEmpty (Form.equipmentType f) = true /\ nonEmpty (Form.weight f) = true /\
    nonEmpty (Form.pickupDate f) = true /\
    parseFloat (Form.weight f) = Fin w /\ (0 < w)%Q /\
    Form.originInputValue f = Form.origin f /\
    Form.destinationInputValue f = Form.destination f.
Proof.
  unfold accepted, formFilled, weightPositive, locationsConfirmed.
  rewrite !andb_true_iff.
  intros [[[[[[Ho Hd] He] Hw] Hp] Hpos] [Hoi Hdi]].
  destruct (parseFloat (Form.weight f)) as [w |] eqn:Ew; [| discriminate Hpos].
  exists w. apply lt_Fin in Hpos.
  apply String.eqb_eq in Hoi, Hdi. repeat split; auto.
Qed.

(** What a quote creation does once the form has passed the validations:
    the distance comes from the cache or from [getDistance], a missing
    distance is reported, and a resolved one is cached when it is truthy and
    new, then the quote enters the ledger. *)
Lemma handleCreateQuote_accepted (dm : Api.DistanceMatrix) (st : State) (w : Q) :
  accepted (form st) = true ->
  parseFloat (Form.weight (form st)) = Fin w ->
  let o := Form.origin (form st) in
  let d := Form.destination (form st) in
  let e := Form.equipmentType (form st) in
  let p := Form.pickupDate (form st) in
  let st1 := setQuote None (setLoading true (setErrorMessage "" st)) in
  let hint := cached (getItem (routeKey o d) st) in
  handleCreateQuote dm st =
  let '(distance, calls) :=
    if isNull hint then Api.getDistance dm o d
    else (number (parseFloatValue hint), []) in
  match distance with
  | number distance =>
      let b := Api.calculateTotal distance (Fin w) e in
      let q :=
        Quote.mk o d e (number (Fin w)) p distance (Api.days distance)
          (Breakdown.total b) (Breakdown.baseRate b) (Breakdown.weightFactor b)
          (Breakdown.fuelSurcharge b) (Breakdown.equipmentCharge b) in
      let st2 :=
        if isNull hint && truthy distance then
          setItem (routeKey d o) (storedNumber distance)
            (setItem (routeKey o d) (storedNumber distance) st1)
        else st1 in
      let updated := updatedQuotes q (quotes st) in
      (setLoading false
         (setQuotes updated
            (setQuote (Some q)
               (setItem "quotes" (storedQuotes updated) st2))), calls)
  | _ =>
      (setLoading false
         (setErrorMessage
            ("No route between " +:+ o +:+ " and " +:+ d +:+ " available.")
            st1), calls)
  end.
Proof.
  intros Hacc Hw.
  destruct (accepted_inv _ Hacc)
    as (w' & Ho & Hd & He & Hwn & Hp & Hw' & Hpos & Hoi & Hdi).
  rewrite Hw in Hw'. injection Hw' as <-.
  unfold handleCreateQuote. cbn [form setErrorMessage].
  destruct (form st) as [o d e wt p oi di].
  cbn [Form.origin Form.destination Form.equipmentType Form.weight
       Form.pickupDate Form.originInputValue Form.destinationInputValue] in *.
  subst oi di. rewrite Ho, Hd, He, Hwn, Hp, Hw, !String.eqb_refl.
  assert (Hle : JS.le (Fin w) (Fin 0) = false).
  { unfold JS.le. apply Qle_bool_false. exact Hpos. }
  rewrite Hle. cbn [negb orb toJSON].
  rewrite handler_fields_present; auto;
    [| cbn; apply truthy_Fin; intros E; rewrite E in Hpos; discriminate Hpos].
  unfold getItem.
  cbn [localStorage setQuote setLoading setErrorMessage Api.ok Api.status
       Api.json Quote.distance].
  destruct (isNull (cached (localStorage st !! routeKey o d))); cbn;
    [destruct (dm o d) as [| s [m |]]; cbn; [reflexivity | | ];
     destruct (String.eqb s "ZERO_RESULTS"); cbn; try reflexivity;
     destruct (truthy _); reflexivity |].
  reflexivity.
Qed.

(** The requests the handler makes: one, for the route of the body, when
    the fields are present and the body has no distance hint; none
    otherwise. *)
Lemma handler_calls (dm : Api.DistanceMatrix) (req : Api.Request) :
  Api.method req = "POST" ->
  snd (Api.handler dm req)
  = if bodyFilled (Api.body req) && isNull (Api.cacheDistance (Api.body req))
    then [(Api.origin (Api.body req), Api.destination (Api.body req))]
    else [].
Proof.
  intros Hm. unfold Api.handler, bodyFilled. rewrite Hm.
  change (("POST" =? "POST")%string) with true. cbn [negb].
  destruct (Api.body req) as [o d e w p c].
  cbn [Api.origin Api.destination Api.equipmentType Api.weight
       Api.pickupDate Api.cacheDistance].
  destruct (nonEmpty o), (nonEmpty d), (nonEmpty e), (ToBoolean w),
    (nonEmpty p); cbn [negb orb andb]; try reflexivity.
  destruct (isNull c).
  - unfold Api.getDistance.
    destruct (dm o d) as [| status [metres |]]; [reflexivity | |];
      destruct (String.eqb status "ZERO_RESULTS"); reflexivity.
  - reflexivity.
Qed.

(** C8 (amended). The quote button checks that every field is filled in,
    that the weight is > 0 and that origin and destination are the confirmed
    selections: when one of these validations fails, an error message is
    set, no request reaches the distance collaborator, and the ledger, its
    persisted copy and the distance cache are left as they were. The API
    route checks that the five fields are present, and no more: a request
    without one of them is answered 400 "All fields are required." before
    any request to the distance collaborator, and every other request goes
    on to its distance, with a request to the collaborator when the body has
    no distance hint, whatever its weight. *)
Theorem handleCreateQuote_validation (dm : Api.DistanceMatrix) (st : State)
    (req : Api.Request) :
  accepted (form st) = false ->
  Api.method req = "POST" ->
  (let st' := fst (handleCreateQuote dm st) in
   snd (handleCreateQuote dm st) = [] /\
   (errorMessage st' = "Please fill in all required fields."
    \/ errorMessage st' = "Invalid weight value."
    \/ errorMessage st' = "Invalid locations, please select from dropdown."
    \/ errorMessage st' = "All fields are required.") /\
   quotes st' = quotes st /\
   localStorage st' = localStorage st) /\
  (if bodyFilled (Api.body req)
   then snd (Api.handler dm req)
        = (if isNull (Api.cacheDistance (Api.body req))
           then [(Api.origin (Api.body req), Api.destination (Api.body req))]
           else [])
   else Api.handler dm req
        = (Api.mkResponse 400 (Api.error "All fields are required."), [])).
Proof.
  intros Hacc Hm. split.
  - revert Hacc.
    unfold accepted, formFilled, weightPositive, locationsConfirmed.
    unfold handleCreateQuote. cbn [form setErrorMessage].
    destruct (form st) as [o d e w p oi di].
    cbn [Form.origin Form.destination Form.equipmentType Form.weight
         Form.pickupDate Form.originInputValue Form.destinationInputValue].
    destruct (nonEmpty o) eqn:Ho; [| intros _; cbn; auto].
    destruct (nonEmpty d) eqn:Hd; [| intros _; cbn; auto].
    destruct (nonEmpty e) eqn:He; [| intros _; cbn; auto].
    destruct (nonEmpty w) eqn:Hw; [| intros _; cbn; auto].
    destruct (nonEmpty p) eqn:Hp; [| intros _; cbn; auto].
    cbn [negb orb andb].
    destruct (parseFloat w) as [x |] eqn:Ex.
    + unfold JS.gt, JS.lt, JS.le.
      destruct (Qle_bool x 0) eqn:Hx; [intros _; cbn; auto 6 |].
      cbn [negb andb].
      destruct (String.eqb o oi); [| intros _; cbn; auto 6].
      destruct (String.eqb d di); [discriminate | intros _; cbn; auto 6].
    + intros _. cbn [JS.le toJSON].
      destruct (String.eqb o oi); [| cbn; auto 6].
      destruct (String.eqb d di); [| cbn; auto 6].
      cbn [negb orb]. unfold Api.handler. cbn [Api.method Api.body].
      rewrite Ho, Hd, He, Hp. cbn. auto 6.
  - destruct (bodyFilled (Api.body req)) eqn:Hb.
    + rewrite (handler_calls dm req Hm), Hb. reflexivity.
    + unfold Api.handler, bodyFilled in *. rewrite Hm.
      change (("POST" =? "POST")%string) with true. cbn [negb].
      destruct (Api.body req) as [o d e w p c].
      cbn [Api.origin Api.destination Api.equipmentType Api.weight
           Api.pickupDate] in Hb.
      destruct (nonEmpty o), (nonEmpty d), (nonEmpty e), (ToBoolean w),
        (nonEmpty p); try discriminate Hb; reflexivity.
Qed.

Lemma handleCreateQuote_validation_witness :
  let st :=
    mkState (Form.mk "Toronto, ON" "Ottawa, ON" "reefer" "0" "2025-03-01"
               "Toronto, ON" "Ottawa, ON")
      None [] (Filters.mk "" "" "") false "" ∅ in
  let dm : Api.DistanceMatrix := fun _ _ => Api.Element "OK" (Some 450000%Z) in
  let req :=
    Api.mkRequest "POST"
      (Api.mkBody "Toronto, ON" "Ottawa, ON" "reefer" (number (Fin 0))
         "2025-03-01" null) in
  (let st' := fst (handleCreateQuote dm st) in
   snd (handleCreateQuote dm st) = [] /\
   (errorMessage st' = "Please fill in all required fields."
    \/ errorMessage st' = "Invalid weight value."
    \/ errorMessage st' = "Invalid locations, please select from dropdown."
    \/ errorMessage st' = "All fields are required.") /\
   quotes st' = quotes st /\
   localStorage st' = localStorage st) /\
  Api.handler dm req
  = (Api.mkResponse 400 (Api.error "All fields are required."), []).
Proof.
  intros st dm req.
  apply (handleCreateQuote_validation dm st req); reflexivity.
Defined.

(** The API route does not check the weight: posted to it directly, a
    request with a weight below 0 passes the field check, reaches the
    distance collaborator and is answered 201 with a quote. *)
Lemma handler_accepts_negative_weight :
  let dm : Api.DistanceMatrix := fun _ _ => Api.Element "OK" (Some 450000%Z) in
  let req :=
    Api.mkRequest "POST"
      (Api.mkBody "Toronto, ON" "Ottawa, ON" "dry_van" (number (Fin (-5)))
         "2025-03-01" null) in
  snd (Api.handler dm req) = [("Toronto, ON", "Ottawa, ON")] /\
  Api.status (fst (Api.handler dm req)) = 201 /\
  exists q, Api.json (fst (Api.handler dm req)) = Api.quote q /\
            Quote.weight q = number (Fin (-5)).
Proof.
  intros dm req. split; [reflexivity |]. split; [reflexivity |].
  eexists. split; reflexivity.
Qed.

(** In general: whatever the weight, zero and [NaN] apart, a request with
    the fields present and no distance hint reaches the collaborator. *)
Lemma handler_checks_presence_only (dm : Api.DistanceMatrix) (o d e p : string)
    (w : Q) :
  nonEmpty o = true -> nonEmpty d = true -> nonEmpty e = true ->
  nonEmpty p = true -> ~ (w == 0)%Q ->
  snd (Api.handler dm
         (Api.mkRequest "POST" (Api.mkBody o d e (number (Fin w)) p null)))
  = [(o, d)].
Proof.
  intros Ho Hd He Hp Hw.
  assert (Ht : ToBoolean (number (Fin w)) = true).
  { cbn. destruct (Qeq_bool w 0) eqn:E; [| reflexivity].
    apply Qeq_bool_iff in E. contradiction. }
  rewrite (handler_fields_present dm o d e p _ null Ho Hd He Ht Hp).
  cbn [isNull]. unfold Api.getDistance.
  destruct (dm o d) as [| status [metres |]]; [reflexivity | |];
    destruct (String.eqb status "ZERO_RESULTS"); reflexivity.
Qed.
Lemma kms_truthy (metres : Z) :
  metres <> 0%Z -> truthy (ofZ metres / Fin 1000)%js = true.
Proof.
  intros Hm. cbn. apply negb_true_iff.
  destruct (Qeq_bool (inject_Z metres / 1000) 0) eqn:E; [| reflexivity].
  apply Qeq_bool_iff in E. exfalso. apply Hm.
  assert (H : (inject_Z metres == 0)%Q).
  { assert (Hx : (inject_Z metres == inject_Z metres / 1000 * 1000)%Q) by field.
    rewrite Hx, E. reflexivity. }
  unfold Qeq in H. cbn in H. lia.
Qed.

Lemma kms_zero : (ofZ 0 / Fin 1000)%js = Fin (0 / 1000).
Proof. reflexivity. Qed.

(** The state after a creation that asked the collaborator and got a
    distance in metres. *)
Lemma handleCreateQuote_lookup (dm : Api.DistanceMatrix) (st : State)
    (status : string) (metres : Z) :
  let o := Form.origin (form st) in
  let d := Form.destination (form st) in
  accepted (form st) = true ->
  getItem (routeKey o d) st = None ->
  dm o d = Api.Element status (Some metres) ->
  status <> "ZERO_RESULTS" ->
  let kms := (ofZ metres / Fin 1000)%js in
  exists q : Quote.t,
    Quote.origin q = o /\ Quote.destination q = d /\ Quote.distance q = kms /\
    handleCreateQuote dm st =
    (setLoading false
       (setQuotes (updatedQuotes q (quotes st))
          (setQuote (Some q)
             (setItem "quotes" (storedQuotes (updatedQuotes q (quotes st)))
                (if truthy kms then
                   setItem (routeKey d o) (storedNumber kms)
                     (setItem (routeKey o d) (storedNumber kms)
                        (setQuote None (setLoading true (setErrorMessage "" st))))
                 else setQuote None (setLoading true (setErrorMessage "" st)))))),
     [(o, d)]).
Proof.
  intros o d Hacc Hmiss Hdm Hst kms.
  destruct (accepted_inv _ Hacc) as (w & _ & _ & _ & _ & _ & Hw & _).
  rewrite (handleCreateQuote_accepted dm st w Hacc Hw). cbv zeta.
  fold o d. rewrite Hmiss. cbn [cached isNull andb].
  unfold Api.getDistance. rewrite Hdm.
  apply String.eqb_neq in Hst. rewrite Hst. fold kms.
  eexists. split; [| split; [| split]]; [| | | reflexivity]; reflexivity.
Qed.

(** The state after a creation whose distance came from the cache. *)
Lemma handleCreateQuote_hit (dm : Api.DistanceMatrix) (st : State) (n : Number) :
  let o := Form.origin (form st) in
  let d := Form.destination (form st) in
  accepted (form st) = true ->
  getItem (routeKey o d) st = Some (storedNumber n) ->
  exists q : Quote.t,
    Quote.origin q = o /\ Quote.destination q = d /\ Quote.distance q = n /\
    handleCreateQuote dm st =
    (setLoading false
       (setQuotes (updatedQuotes q (quotes st))
          (setQuote (Some q)
             (setItem "quotes" (storedQuotes (updatedQuotes q (quotes st)))
                (setQuote None (setLoading true (setErrorMessage "" st)))))),
     []).
Proof.
  intros o d Hacc Hhit.
  destruct (accepted_inv _ Hacc) as (w & _ & _ & _ & _ & _ & Hw & _).
  rewrite (handleCreateQuote_accepted dm st w Hacc Hw). cbv zeta.
  fold o d. rewrite Hhit. cbn [cached isNull andb parseFloatValue].
  eexists. split; [| split; [| split]]; [| | | reflexivity]; reflexivity.
Qed.

(** The state after a creation whose lookup gave no distance: no route, or
    a failure of the request. *)
Lemma handleCreateQuote_no_distance (dm : Api.DistanceMatrix) (st : State) :
  let o := Form.origin (form st) in
  let d := Form.destination (form st) in
  accepted (form st) = true ->
  getItem (routeKey o d) st = None ->
  (dm o d = Api.FetchError
   \/ (exists v, dm o d = Api.Element "ZERO_RESULTS" v)
   \/ (exists s, dm o d = Api.Element s None)) ->
  handleCreateQuote dm st =
  (setLoading false
     (setErrorMessage
        ("No route between " +:+ o +:+ " and " +:+ d +:+ " available.")
        (setQuote None (setLoading true (setErrorMessage "" st)))),
   [(o, d)]).
Proof.
  intros o d Hacc Hmiss Hdm.
  destruct (accepted_inv _ Hacc) as (w & _ & _ & _ & _ & _ & Hw & _).
  rewrite (handleCreateQuote_accepted dm st w Hacc Hw). cbv zeta.
  fold o d. rewrite Hmiss. cbn [cached isNull andb].
  unfold Api.getDistance.
  destruct Hdm as [-> | [[v ->] | [s ->]]]; try reflexivity.
  destruct (String.eqb s "ZERO_RESULTS"); reflexivity.
Qed.

(** C6 (amended). A successful resolution of (A, B) that called the
    external collaborator and resolved a distance other than 0 writes that
    distance to the cache under both the (A, B) and the (B, A) keys; a
    subsequent resolution of (B, A) is then a cache hit, it yields the
    identical value and makes no external call. *)
Theorem cache_write_symmetric (dm dm' : Api.DistanceMatrix) (st : State)
    (f' : Form.t) (a b status : string) (metres : Z) :
  Form.origin (form st) = a -> Form.destination (form st) = b ->
  accepted (form st) = true ->
  getItem (routeKey a b) st = None ->
  dm a b = Api.Element status (Some metres) ->
  status <> "ZERO_RESULTS" -> metres <> 0%Z ->
  Form.origin f' = b -> Form.destination f' = a -> accepted f' = true ->
  let kms := (ofZ metres / Fin 1000)%js in
  let st1 := fst (handleCreateQuote dm st) in
  let second := handleCreateQuote dm' (withForm f' st1) in
  snd (handleCreateQuote dm st) = [(a, b)] /\
  (exists q, quote st1 = Some q /\ Quote.distance q = kms) /\
  getItem (routeKey a b) st1 = Some (storedNumber kms) /\
  getItem (routeKey b a) st1 = Some (storedNumber kms) /\
  snd second = [] /\
  (exists q, quote (fst second) = Some q /\ Quote.origin q = b /\
             Quote.destination q = a /\ Quote.distance q = kms).
Proof.
  intros Ha Hb Hacc Hmiss Hdm Hst Hm Ha' Hb' Hacc' kms st1 second.
  subst a b.
  destruct (handleCreateQuote_lookup dm st status metres Hacc Hmiss Hdm Hst)
    as (q & Hqo & Hqd & Hqk & E).
  fold kms in E, Hqk.
  assert (Htr : truthy kms = true) by exact (kms_truthy metres Hm).
  rewrite Htr in E.
  assert (Hab : getItem (routeKey (Form.origin (form st))
                           (Form.destination (form st))) st1
                = Some (storedNumber kms)).
  { subst st1. rewrite E. unfold getItem. cbn.
    rewrite lookup_insert_ne by (apply not_eq_sym, routeKey_not_quotes).
    rewrite lookup_insert. case_decide; [reflexivity |].
    apply lookup_insert_eq. }
  assert (Hba : getItem (routeKey (Form.destination (form st))
                           (Form.origin (form st))) st1
                = Some (storedNumber kms)).
  { subst st1. rewrite E. unfold getItem. cbn.
    rewrite lookup_insert_ne by (apply not_eq_sym, routeKey_not_quotes).
    apply lookup_insert_eq. }
  split; [rewrite E; reflexivity |].
  split; [exists q; subst st1; rewrite E; split; [reflexivity | exact Hqk] |].
  split; [exact Hab |]. split; [exact Hba |].
  assert (Hhit : getItem (routeKey (Form.origin (form (withForm f' st1)))
                            (Form.destination (form (withForm f' st1))))
                   (withForm f' st1) = Some (storedNumber kms)).
  { cbn [withForm form]. rewrite Ha', Hb'. exact Hba. }
  destruct (handleCreateQuote_hit dm' (withForm f' st1) kms Hacc' Hhit)
    as (q' & Hqo' & Hqd' & Hqk' & E').
  subst second. rewrite E'. split; [reflexivity |].
  exists q'. cbn [withForm form] in Hqo', Hqd'.
  rewrite Ha' in Hqo'. rewrite Hb' in Hqd'. repeat split; auto.
Qed.

Lemma cache_write_symmetric_witness :
  let st :=
    mkState (Form.mk "Toronto, ON" "Ottawa, ON" "reefer" "15000" "2025-03-01"
               "Toronto, ON" "Ottawa, ON")
      None [] (Filters.mk "" "" "") false "" ∅ in
  let f' :=
    Form.mk "Ottawa, ON" "Toronto, ON" "dry_van" "800" "2025-04-02"
      "Ottawa, ON" "Toronto, ON" in
  let dm : Api.DistanceMatrix := fun _ _ => Api.Element "OK" (Some 450000%Z) in
  let dm' : Api.DistanceMatrix := fun _ _ => Api.FetchError in
  let kms := (ofZ 450000 / Fin 1000)%js in
  let st1 := fst (handleCreateQuote dm st) in
  let second := handleCreateQuote dm' (withForm f' st1) in
  snd (handleCreateQuote dm st) = [("Toronto, ON", "Ottawa, ON")] /\
  (exists q, quote st1 = Some q /\ Quote.distance q = kms) /\
  getItem (routeKey "Toronto, ON" "Ottawa, ON") st1 = Some (storedNumber kms) /\
  getItem (routeKey "Ottawa, ON" "Toronto, ON") st1 = Some (storedNumber kms) /\
  snd second = [] /\
  (exists q, quote (fst second) = Some q /\ Quote.origin q = "Ottawa, ON" /\
             Quote.destination q = "Toronto, ON" /\ Quote.distance q = kms).
Proof.
  intros st f' dm dm'.
  apply (cache_write_symmetric dm dm' st f' "Toronto, ON" "Ottawa, ON" "OK"
           450000);
    try reflexivity; discriminate.
Defined.

(** A resolution that called the collaborator and succeeded with a distance
    of 0 km leaves no entry under either key, and the resolution of the
    reverse pair that follows calls the collaborator again. *)
Lemma zero_distance_breaks_symmetry :
  let st :=
    mkState (Form.mk "Union Station, Toronto, ON" "65 Front St W, Toronto, ON"
               "dry_van" "5000" "2025-03-01"
               "Union Station, Toronto, ON" "65 Front St W, Toronto, ON")
      None [] (Filters.mk "" "" "") false "" ∅ in
  let f' :=
    Form.mk "65 Front St W, Toronto, ON" "Union Station, Toronto, ON"
      "dry_van" "5000" "2025-03-02"
      "65 Front St W, Toronto, ON" "Union Station, Toronto, ON" in
  let dm : Api.DistanceMatrix := fun _ _ => Api.Element "OK" (Some 0%Z) in
  let st1 := fst (handleCreateQuote dm st) in
  snd (handleCreateQuote dm st)
    = [("Union Station, Toronto, ON", "65 Front St W, Toronto, ON")] /\
  errorMessage st1 = "" /\ length (quotes st1) = 1%nat /\
  getItem (routeKey "Union Station, Toronto, ON" "65 Front St W, Toronto, ON") st1
    = None /\
  getItem (routeKey "65 Front St W, Toronto, ON" "Union Station, Toronto, ON") st1
    = None /\
  snd (handleCreateQuote dm (withForm f' st1))
    = [("65 Front St W, Toronto, ON", "Union Station, Toronto, ON")].
Proof.
  vm_compute. repeat split.
Qed.

(** C10. When a quote creation resolves a distance of exactly 0 km through
    the external collaborator, the cache write is skipped: the distance
    cache is unchanged, no entry is created for (origin, destination) nor for
    (destination, origin), and the next creation for the same pair asks the
    collaborator again. *)
Theorem zero_distance_not_cached (dm : Api.DistanceMatrix) (st : State)
    (a b status : string) :
  Form.origin (form st) = a -> Form.destination (form st) = b ->
  accepted (form st) = true ->
  getItem (routeKey a b) st = None ->
  dm a b = Api.Element status (Some 0%Z) ->
  status <> "ZERO_RESULTS" ->
  let st1 := fst (handleCreateQuote dm st) in
  snd (handleCreateQuote dm st) = [(a, b)] /\
  (exists q, quote st1 = Some q /\ denotes (Quote.distance q) 0) /\
  distanceCache st1 = distanceCache st /\
  getItem (routeKey a b) st1 = None /\
  getItem (routeKey b a) st1 = getItem (routeKey b a) st /\
  snd (handleCreateQuote dm st1) = [(a, b)].
Proof.
  intros Ha Hb Hacc Hmiss Hdm Hst st1. subst a b.
  destruct (handleCreateQuote_lookup dm st status 0 Hacc Hmiss Hdm Hst)
    as (q & Hqo & Hqd & Hqk & E).
  rewrite kms_zero in E, Hqk. cbn [truthy Qeq_bool] in E.
  change (negb (Qeq_bool (0 / 1000) 0)) with false in E. cbv iota in E.
  assert (Hls : forall key, key <> "quotes" -> getItem key st1 = getItem key st).
  { intros key Hk. subst st1. rewrite E. unfold getItem. cbn.
    apply lookup_insert_ne, not_eq_sym, Hk. }
  split; [rewrite E; reflexivity |].
  split.
  { exists q. subst st1. rewrite E. split; [reflexivity |].
    rewrite Hqk. reflexivity. }
  split.
  { subst st1. rewrite E. cbn [fst]. unfold distanceCache. cbn.
    apply delete_insert_eq. }
  split; [rewrite Hls; [exact Hmiss | apply routeKey_not_quotes] |].
  split; [apply Hls, routeKey_not_quotes |].
  assert (Hform : form st1 = form st) by (subst st1; rewrite E; reflexivity).
  assert (Hacc1 : accepted (form st1) = true) by (rewrite Hform; exact Hacc).
  assert (Hmiss1 : getItem (routeKey (Form.origin (form st1))
                              (Form.destination (form st1))) st1 = None).
  { rewrite Hform, Hls; [exact Hmiss | apply routeKey_not_quotes]. }
  assert (Hdm1 : dm (Form.origin (form st1)) (Form.destination (form st1))
                 = Api.Element status (Some 0%Z)) by (rewrite Hform; exact Hdm).
  destruct (handleCreateQuote_lookup dm st1 status 0 Hacc1 Hmiss1 Hdm1 Hst)
    as (q1 & _ & _ & _ & E1).
  rewrite E1, Hform. reflexivity.
Qed.

Lemma zero_distance_not_cached_witness :
  let st :=
    mkState (Form.mk "Union Station, Toronto, ON" "65 Front St W, Toronto, ON"
               "dry_van" "5000" "2025-03-01"
               "Union Station, Toronto, ON" "65 Front St W, Toronto, ON")
      None [] (Filters.mk "" "" "") false ""
      (<["Toronto, ON-Ottawa, ON" := storedNumber (Fin 450)]> ∅) in
  let a := "Union Station, Toronto, ON" in
  let b := "65 Front St W, Toronto, ON" in
  let dm : Api.DistanceMatrix := fun _ _ => Api.Element "OK" (Some 0%Z) in
  let st1 := fst (handleCreateQuote dm st) in
  snd (handleCreateQuote dm st) = [(a, b)] /\
  (exists q, quote st1 = Some q /\ denotes (Quote.distance q) 0) /\
  distanceCache st1 = distanceCache st /\
  getItem (routeKey a b) st1 = None /\
  getItem (routeKey b a) st1 = getItem (routeKey b a) st /\
  snd (handleCreateQuote dm st1) = [(a, b)].
Proof.
  intros st a b dm.
  apply (zero_distance_not_cached dm st a b "OK"); try reflexivity.
  discriminate.
Defined.

(** At most one request to the collaborator per quote creation. *)
Lemma handleCreateQuote_at_most_one_call (dm : Api.DistanceMatrix) (st : State) :
  (length (snd (handleCreateQuote dm st)) <= 1)%nat.
Proof.
  unfold handleCreateQuote. cbn [form setErrorMessage].
  destruct (form st) as [o d e w p oi di].
  destruct (_ || _); [cbn; lia |].
  destruct (JS.le _ _); [cbn; lia |].
  destruct (_ || _); [cbn; lia |].
  match goal with
  | |- context [Api.handler dm ?r] =>
      pose proof (handler_at_most_one_call dm r) as H;
      destruct (Api.handler dm r) as [response calls]
  end.
  cbn [snd] in H.
  destruct (negb (Api.ok response)); [exact H |].
  destruct (Api.json response); exact H.
Qed.

(** A lookup that fails, like one that finds no route, makes one request,
    reports the missing route and leaves the ledger and the store alone. *)
Lemma handleCreateQuote_no_distance_frame (dm : Api.DistanceMatrix) (st : State) :
  let o := Form.origin (form st) in
  let d := Form.destination (form st) in
  accepted (form st) = true ->
  getItem (routeKey o d) st = None ->
  (dm o d = Api.FetchError
   \/ (exists v, dm o d = Api.Element "ZERO_RESULTS" v)
   \/ (exists s, dm o d = Api.Element s None)) ->
  let st' := fst (handleCreateQuote dm st) in
  snd (handleCreateQuote dm st) = [(o, d)] /\
  errorMessage st' =
    "No route between " +:+ o +:+ " and " +:+ d +:+ " available." /\
  quotes st' = quotes st /\
  localStorage st' = localStorage st.
Proof.
  intros o d Hacc Hmiss Hdm.
  rewrite (handleCreateQuote_no_distance dm st Hacc Hmiss Hdm).
  repeat split.
Qed.

(** The handler cannot tell a failed lookup from a missing route. *)
Lemma handler_failure_as_no_route (dm dm' : Api.DistanceMatrix)
    (m o d e p : string) (w c : Value) (v : option Z) :
  dm o d = Api.FetchError ->
  dm' o d = Api.Element "ZERO_RESULTS" v ->
  Api.handler dm (Api.mkRequest m (Api.mkBody o d e w p c)) =
  Api.handler dm' (Api.mkRequest m (Api.mkBody o d e w p c)).
Proof.
  intros H H'. unfold Api.handler, Api.getDistance.
  cbn [Api.method Api.body]. rewrite H, H'.
  destruct (negb _); [reflexivity |].
  destruct (_ || _); [reflexivity |].
  destruct (isNull c); reflexivity.
Qed.

(** C7, the code where the collaborator fails. With the request to the
    Distance Matrix service failing, or its answer lacking the distance, the
    handler gives the very answer it gives when the service reports that no
    route exists: status 400 and "No route between ... available."; the page
    shows that message. One request is made and nothing is stored. *)
Theorem lookup_failure_reported_as_no_route :
  let request :=
    Api.mkRequest "POST"
      (Api.mkBody "Toronto, ON" "Ottawa, ON" "dry_van" (number (Fin 5000))
         "2025-03-01" null) in
  let noRoute :=
    (Api.mkResponse 400
       (Api.error "No route between Toronto, ON and Ottawa, ON available."),
     [("Toronto, ON", "Ottawa, ON")]) in
  Api.handler (fun _ _ => Api.Element "ZERO_RESULTS" None) request = noRoute /\
  Api.handler (fun _ _ => Api.FetchError) request = noRoute /\
  Api.handler (fun _ _ => Api.Element "OK" None) request = noRoute /\
  let st :=
    mkState (Form.mk "Toronto, ON" "Ottawa, ON" "dry_van" "5000" "2025-03-01"
               "Toronto, ON" "Ottawa, ON")
      None [] (Filters.mk "" "" "") false "" ∅ in
  let st' := fst (handleCreateQuote (fun _ _ => Api.FetchError) st) in
  errorMessage st' = "No route between Toronto, ON and Ottawa, ON available." /\
  quotes st' = [] /\ localStorage st' = ∅.
Proof.
  vm_compute. repeat split.
Qed.

(** An accepted creation either reports a missing distance and leaves the
    ledger and the store alone, or puts the new quote in front of the ledger,
    sorts it and persists it. *)
Lemma handleCreateQuote_ledger (dm : Api.DistanceMatrix) (st : State) :
  accepted (form st) = true ->
  let st' := fst (handleCreateQuote dm st) in
  (nonEmpty (errorMessage st') = true /\ quotes st' = quotes st /\
   localStorage st' = localStorage st)
  \/ (exists q, quote st' = Some q /\ errorMessage st' = "" /\
        quotes st' = updatedQuotes q (quotes st) /\
        persistedLedger st' = Some (storedQuotes (quotes st'))).
Proof.
  intros Hacc.
  destruct (accepted_inv _ Hacc) as (w & _ & _ & _ & _ & _ & Hw & _).
  rewrite (handleCreateQuote_accepted dm st w Hacc Hw). cbv zeta.
  destruct (if isNull _ then _ else _) as [[| | n] calls].
  - left. repeat split.
  - left. repeat split.
  - right. eexists. split; [reflexivity |].
    split; [destruct (isNull _ && truthy n); reflexivity |].
    split; [reflexivity |]. unfold persistedLedger. cbn.
    apply lookup_insert_eq.
Qed.

End QuoteCreation.

(** ** The ledger *)

Section Ledger.
Import HomePage.

Lemma hasDate_Fin (q : Quote.t) :
  hasDate q = true -> exists t, pickupTime q = Fin t.
Proof.
  unfold hasDate. destruct (pickupTime q) as [t |]; [eauto | discriminate].
Qed.

(** On valid dates [sortQuotes(x, y) > 0] says that [x] is picked up later
    than [y]. *)
Lemma after_later (x y : Quote.t) :
  hasDate x = true -> hasDate y = true ->
  after sortQuotes x y = negb (pickupTime x <=? pickupTime y)%js.
Proof.
  intros Hx Hy. unfold after, sortQuotes. fold (pickupTime x) (pickupTime y).
  destruct (hasDate_Fin x Hx) as [a ->], (hasDate_Fin y Hy) as [b ->].
  cbn. f_equal.
  destruct (Qle_bool a b) eqn:E.
  - apply Qle_bool_iff. apply Qle_bool_iff in E.
    apply (Qplus_le_l _ _ b). ring_simplify. exact E.
  - apply Qle_bool_false. apply Qle_bool_false in E.
    apply (Qplus_lt_l _ _ b). ring_simplify. exact E.
Qed.

Lemma notLater_trans (x y z : Quote.t) :
  notLater x y -> notLater y z -> notLater x z.
Proof.
  unfold notLater.
  destruct (pickupTime x), (pickupTime y), (pickupTime z); try discriminate.
  cbn. rewrite !Qle_bool_iff. apply Qle_trans.
Qed.

Lemma later_notLater (x y : Quote.t) :
  hasDate x = true -> hasDate y = true ->
  (pickupTime x <=? pickupTime y)%js = false -> notLater y x.
Proof.
  intros Hx Hy. unfold notLater.
  destruct (hasDate_Fin x Hx) as [a ->], (hasDate_Fin y Hy) as [b ->].
  cbn. intros H. apply Qle_bool_false in H.
  apply Qle_bool_iff. now apply Qlt_le_weak.
Qed.

Lemma sortInsert_Permutation (x : Quote.t) (l : list Quote.t) :
  Permutation (sortInsert sortQuotes x l) (x :: l).
Proof.
  induction l as [| y l IH]; cbn [sortInsert]; [reflexivity |].
  destruct (after sortQuotes x y); [| reflexivity].
  rewrite IH. apply perm_swap.
Qed.

Lemma sort_Permutation (l : list Quote.t) :
  Permutation (sort sortQuotes l) l.
Proof.
  induction l as [| x l IH]; cbn [sort]; [reflexivity |].
  rewrite sortInsert_Permutation. now apply perm_skip.
Qed.

Lemma forallb_hasDate_Permutation (l l' : list Quote.t) :
  Permutation l l' -> forallb hasDate l = true -> forallb hasDate l' = true.
Proof.
  intros Hp. rewrite !forallb_forall. intros H q Hq.
  apply H. eapply Permutation_in; [symmetry; exact Hp | exact Hq].
Qed.

Lemma sortInsert_sorted (x : Quote.t) (l : list Quote.t) :
  hasDate x = true -> forallb hasDate l = true ->
  StronglySorted notLater l ->
  StronglySorted notLater (sortInsert sortQuotes x l).
Proof.
  intros Hx. induction l as [| y l IH]; intros Hl Hs; cbn [sortInsert].
  - repeat constructor.
  - cbn [forallb] in Hl. apply andb_true_iff in Hl as [Hy Hl].
    apply StronglySorted_inv in Hs as [Hs Hall].
    rewrite (after_later x y Hx Hy).
    destruct (pickupTime x <=? pickupTime y)%js eqn:E; cbn [negb].
    + constructor; [constructor; assumption |].
      constructor; [exact E |].
      eapply Forall_impl; [exact Hall |].
      intros z Hz. eapply notLater_trans; [exact E | exact Hz].
    + constructor; [apply IH; assumption |].
      eapply Permutation_Forall; [symmetry; apply sortInsert_Permutation |].
      constructor; [| exact Hall].
      apply later_notLater; assumption.
Qed.

Lemma sort_sorted (l : list Quote.t) :
  forallb hasDate l = true -> StronglySorted notLater (sort sortQuotes l).
Proof.
  induction l as [| x l IH]; intros Hl; cbn [sort]; [constructor |].
  cbn [forallb] in Hl. apply andb_true_iff in Hl as [Hx Hl].
  apply sortInsert_sorted; auto.
  eapply forallb_hasDate_Permutation; [symmetry; apply sort_Permutation | exact Hl].
Qed.

(** Sorting a sorted ledger changes nothing. *)
Lemma sort_of_sorted (l : list Quote.t) :
  forallb hasDate l = true -> StronglySorted notLater l ->
  sort sortQuotes l = l.
Proof.
  induction l as [| x l IH]; intros Hl Hs; cbn [sort]; [reflexivity |].
  cbn [forallb] in Hl. apply andb_true_iff in Hl as [Hx Hl].
  apply StronglySorted_inv in Hs as [Hs Hall].
  rewrite IH by assumption.
  destruct l as [| y l]; [reflexivity |]. cbn [sortInsert].
  cbn [forallb] in Hl. apply andb_true_iff in Hl as [Hy Hl].
  rewrite (after_later x y Hx Hy).
  apply Forall_inv in Hall. unfold notLater in Hall. rewrite Hall. reflexivity.
Qed.

(** The ledger after a sequence of creations is the stable sort of the
    quotes taken from the newest to the oldest. *)
Lemma ledgerAfter_sort_rev (qs : list Quote.t) :
  forallb hasDate qs = true ->
  ledgerAfter qs = sort sortQuotes (rev qs).
Proof.
  unfold ledgerAfter. induction qs as [| q qs IH] using rev_ind; intros Hq.
  - reflexivity.
  - rewrite forallb_app in Hq. apply andb_true_iff in Hq as [Hqs Hq].
    rewrite fold_left_app, rev_app_distr. cbn [fold_left rev app].
    rewrite IH by assumption. unfold updatedQuotes. cbn [sort].
    rewrite sort_of_sorted; [reflexivity | |].
    + eapply forallb_hasDate_Permutation;
        [symmetry; apply sort_Permutation |].
      eapply forallb_hasDate_Permutation; [apply Permutation_rev | exact Hqs].
    + apply sort_sorted.
      eapply forallb_hasDate_Permutation; [apply Permutation_rev | exact Hqs].
Qed.

(** Stability: among the quotes picked up at the same time the sort keeps
    the order of its input. *)
Lemma sortInsert_filter (t : Q) (x : Quote.t) (l : list Quote.t) :
  List.filter (pickedUpAt t) (sortInsert sortQuotes x l) =
  List.filter (pickedUpAt t) (x :: l).
Proof.
  induction l as [| y l IH]; [reflexivity |].
  cbn [sortInsert]. destruct (after sortQuotes x y) eqn:E; [| reflexivity].
  cbn [List.filter] in *. rewrite IH.
  destruct (pickedUpAt t x) eqn:Px; [| reflexivity].
  destruct (pickedUpAt t y) eqn:Py; [| reflexivity].
  exfalso. unfold after, sortQuotes in E. unfold pickedUpAt, pickupTime in Px, Py.
  destruct (Date (Quote.pickupDate x)) as [a |]; [| discriminate].
  destruct (Date (Quote.pickupDate y)) as [b |]; [| discriminate].
  cbn in E, Px, Py. apply Qeq_bool_iff in Px, Py.
  apply negb_true_iff, Qle_bool_false in E.
  rewrite Px, Py in E. revert E. apply Qle_not_lt.
  ring_simplify. apply Qle_refl.
Qed.

Lemma sort_filter (t : Q) (l : list Quote.t) :
  List.filter (pickedUpAt t) (sort sortQuotes l) = List.filter (pickedUpAt t) l.
Proof.
  induction l as [| x l IH]; [reflexivity |].
  cbn [sort]. rewrite sortInsert_filter. cbn [List.filter]. now rewrite IH.
Qed.

Lemma looseEq_sym (a b : Number) : (a ==? b)%js = (b ==? a)%js.
Proof.
  destruct a as [p |], b as [q |]; try reflexivity. cbn.
  destruct (Qeq_bool p q) eqn:E, (Qeq_bool q p) eqn:E'; try reflexivity.
  - apply Qeq_bool_iff in E. symmetry in E. apply Qeq_bool_iff in E. congruence.
  - apply Qeq_bool_iff in E'. symmetry in E'. apply Qeq_bool_iff in E'.
    congruence.
Qed.

Lemma distinctDates_eq (l : list Quote.t) :
  distinctDates l = true ->
  forall a b, In a l -> In b l ->
    (pickupTime a ==? pickupTime b)%js = true -> a = b.
Proof.
  induction l as [| x l IH]; intros Hd a b Ha Hb E; [destruct Ha |].
  cbn [distinctDates] in Hd. apply andb_true_iff in Hd as [Hx Hd].
  rewrite forallb_forall in Hx.
  destruct Ha as [<- | Ha], Hb as [<- | Hb].
  - reflexivity.
  - apply Hx in Hb. rewrite E in Hb. discriminate.
  - apply Hx in Ha. rewrite looseEq_sym, E in Ha. discriminate.
  - now apply IH.
Qed.

Lemma notLater_antisym (x y : Quote.t) :
  notLater x y -> notLater y x -> (pickupTime x ==? pickupTime y)%js = true.
Proof.
  unfold notLater. destruct (pickupTime x), (pickupTime y); try discriminate.
  cbn. rewrite !Qle_bool_iff. intros H1 H2.
  apply Qeq_bool_iff. now apply Qle_antisym.
Qed.

(** Two sorted ledgers with the same quotes are the same list when no two
    quotes share a pickup date. *)
Lemma sorted_ledger_unique (l l' : list Quote.t) :
  (forall a b, In a l -> In b l ->
     (pickupTime a ==? pickupTime b)%js = true -> a = b) ->
  StronglySorted notLater l -> StronglySorted notLater l' ->
  Permutation l l' -> l = l'.
Proof.
  revert l'. induction l as [| x l IH]; intros l' Hd Hs Hs' Hp.
  - apply Permutation_nil in Hp. now subst.
  - destruct l' as [| y l'];
      [symmetry in Hp; apply Permutation_nil in Hp; discriminate |].
    apply StronglySorted_inv in Hs as [Hs Hx].
    apply StronglySorted_inv in Hs' as [Hs' Hy].
    assert (Exy : x = y).
    { assert (Hin : In x (y :: l')).
      { eapply Permutation_in; [exact Hp | now left]. }
      assert (Hin' : In y (x :: l)).
      { eapply Permutation_in; [symmetry; exact Hp | now left]. }
      destruct Hin as [-> | Hin]; [reflexivity |].
      destruct Hin' as [-> | Hin']; [reflexivity |].
      rewrite List.Forall_forall in Hx, Hy.
      apply Hd; [now left | now right |].
      apply notLater_antisym; [now apply Hx | now apply Hy]. }
    subst y. f_equal. apply IH; auto.
    + intros a b Ha Hb. apply Hd; now right.
    + eapply Permutation_cons_inv. exact Hp.
Qed.

(** C2 (amended). After any sequence of quote creations the ledger is
    sorted ascending by pickup date and holds exactly the quotes created.
    For quotes with distinct pickup dates the order does not depend on the
    order of creation. Two quotes with the same pickup date appear in the
    reverse of their order of creation, the one created later first. *)
Theorem ledger_sorted_ties_newest_first (qs ds ds' : list Quote.t) (t : Q) :
  forallb hasDate qs = true ->
  forallb hasDate ds = true -> distinctDates ds = true ->
  Permutation ds ds' ->
  StronglySorted notLater (ledgerAfter qs) /\
  Permutation (ledgerAfter qs) qs /\
  ledgerAfter ds' = ledgerAfter ds /\
  List.filter (pickedUpAt t) (ledgerAfter qs)
    = rev (List.filter (pickedUpAt t) qs).
Proof.
  intros Hqs Hds Hdd Hp.
  assert (Hrev : forall l, forallb hasDate l = true ->
                           forallb hasDate (rev l) = true).
  { intros l. apply forallb_hasDate_Permutation, Permutation_rev. }
  assert (Hds' : forallb hasDate ds' = true).
  { eapply forallb_hasDate_Permutation; [exact Hp | exact Hds]. }
  rewrite !ledgerAfter_sort_rev by assumption.
  split; [apply sort_sorted, Hrev, Hqs |].
  split.
  { rewrite sort_Permutation. symmetry. apply Permutation_rev. }
  split.
  - symmetry. apply sorted_ledger_unique.
    + intros a b Ha Hb. apply (distinctDates_eq ds Hdd).
      * eapply Permutation_in; [| exact Ha].
        rewrite sort_Permutation. symmetry. apply Permutation_rev.
      * eapply Permutation_in; [| exact Hb].
        rewrite sort_Permutation. symmetry. apply Permutation_rev.
    + apply sort_sorted, Hrev, Hds.
    + apply sort_sorted, Hrev, Hds'.
    + rewrite !sort_Permutation, <- !Permutation_rev. exact Hp.
  - rewrite sort_filter. apply List.filter_rev.
Qed.

End Ledger.

(** ** Examples of ledgers *)

Section LedgerExamples.
Import HomePage.

Lemma ledger_sorted_ties_newest_first_witness :
  let f p o := Form.mk o "Ottawa, ON" "dry_van" "5000" p o "Ottawa, ON" in
  let a := quoteOf (f "2025-03-05" "Toronto, ON") 450000 in
  let b := quoteOf (f "2025-03-01" "Kingston, ON") 196000 in
  let c := quoteOf (f "2025-03-05" "Montreal, QC") 199000 in
  let d := quoteOf (f "2025-03-09" "Sudbury, ON") 483000 in
  let t := inject_Z 1741132800000 in
  StronglySorted notLater (ledgerAfter [a; b; c]) /\
  Permutation (ledgerAfter [a; b; c]) [a; b; c] /\
  ledgerAfter [d; a; b] = ledgerAfter [a; b; d] /\
  List.filter (pickedUpAt t) (ledgerAfter [a; b; c])
    = rev (List.filter (pickedUpAt t) [a; b; c]).
Proof.
  intros f a b c d t.
  apply (ledger_sorted_ties_newest_first [a; b; c] [a; b; d] [d; a; b] t).
  - reflexivity.
  - reflexivity.
  - reflexivity.
  - apply (Permutation_app_comm [a; b] [d]).
Defined.

(** Two quotes with the same pickup date, created one after the other: the
    ledger lists the later one first. *)
Lemma same_date_newest_first :
  let first :=
    Form.mk "Toronto, ON" "Ottawa, ON" "dry_van" "5000" "2025-03-01"
      "Toronto, ON" "Ottawa, ON" in
  let second :=
    Form.mk "Montreal, QC" "Quebec City, QC" "reefer" "12000" "2025-03-01"
      "Montreal, QC" "Quebec City, QC" in
  let dm : Api.DistanceMatrix := fun _ _ => Api.Element "OK" (Some 450000%Z) in
  let q1 := quoteOf first 450000 in
  let q2 := quoteOf second 450000 in
  Quote.pickupDate q1 = Quote.pickupDate q2 /\
  Quote.origin q1 <> Quote.origin q2 /\
  ledgerAfter [q1; q2] = [q2; q1] /\
  quotes (createAll dm [first; second] initial) = [q2; q1] /\
  persistedLedger (createAll dm [first; second] initial)
    = Some (storedQuotes [q2; q1]).
Proof.
  vm_compute. repeat split. discriminate.
Qed.

End LedgerExamples.

(** ** Deleting from the history view *)

Section Deletion.
Import HomePage.

(** [deleteQuote] removes the entry at the index it is given, in the
    ledger itself, and persists what is left. *)
Lemma deleteQuote_ledger (index : nat) (st : State) :
  quotes (deleteQuote index st) = delete index (quotes st) /\
  persistedLedger (deleteQuote index st)
    = Some (storedQuotes (quotes (deleteQuote index st))) /\
  distanceCache (deleteQuote index st) = distanceCache st.
Proof.
  unfold deleteQuote, persistedLedger, distanceCache, splice1. cbn.
  split; [reflexivity |]. split; [apply lookup_insert_eq |].
  apply delete_insert_eq.
Qed.

(** The delete button hands [deleteQuote] the index of the card in the
    list the component was given, the filtered quotes. *)
Lemma onDeleteClick_ledger (i : nat) (s : QuoteHistory.State) (page : State) :
  snd (QuoteHistory.onDeleteClick i s page)
  = deleteQuote (i + QuoteHistory.startIndex s) page.
Proof. reflexivity. Qed.

Lemma matches_no_filter (q : Quote.t) : matches (Filters.mk "" "" "") q = true.
Proof. reflexivity. Qed.

Lemma filteredQuotes_no_filter (page : State) :
  filters page = Filters.mk "" "" "" -> filteredQuotes page = quotes page.
Proof.
  intros H. unfold filteredQuotes. rewrite H.
  induction (quotes page) as [| q l IH]; [reflexivity |].
  cbn [List.filter]. rewrite matches_no_filter. now f_equal.
Qed.

Lemma currentQuotes_lookup (l : list Quote.t) (s : QuoteHistory.State)
    (i : nat) (q : Quote.t) :
  QuoteHistory.currentQuotes l s !! i = Some q ->
  l !! (i + QuoteHistory.startIndex s)%nat = Some q.
Proof.
  unfold QuoteHistory.currentQuotes, slice. intros H.
  apply lookup_take_Some in H as [H _].
  rewrite lookup_drop in H. now rewrite Nat.add_comm.
Qed.

(** With no filter set, the delete button of a card removes the quote of
    that card, on whatever page it is shown, and the ledger is persisted. *)
Lemma onDeleteClick_unfiltered (i : nat) (s : QuoteHistory.State) (page : State)
    (q : Quote.t) :
  filters page = Filters.mk "" "" "" ->
  QuoteHistory.currentQuotes (filteredQuotes page) s !! i = Some q ->
  let index := (i + QuoteHistory.startIndex s)%nat in
  let page' := snd (QuoteHistory.onDeleteClick i s page) in
  quotes page !! index = Some q /\
  quotes page' = delete index (quotes page) /\
  persistedLedger page' = Some (storedQuotes (quotes page')).
Proof.
  intros Hf Hq index page'.
  rewrite (filteredQuotes_no_filter page Hf) in Hq.
  apply currentQuotes_lookup in Hq.
  subst page'. rewrite onDeleteClick_ledger.
  destruct (deleteQuote_ledger index page) as (H1 & H2 & _).
  auto.
Qed.

(** C1, the code on a filtered view. The ledger holds a Toronto quote and a
    Montreal quote, in that order; with the origin filter "mont" the view
    shows the Montreal quote alone. The delete button of that card calls
    [deleteQuote(0)], which removes the Toronto quote from the ledger and
    persists a ledger that still holds the Montreal quote. *)
Theorem delete_in_filtered_view_removes_another_quote :
  let f1 :=
    Form.mk "Toronto, ON" "Ottawa, ON" "dry_van" "5000" "2025-03-01"
      "Toronto, ON" "Ottawa, ON" in
  let f2 :=
    Form.mk "Montreal, QC" "Quebec City, QC" "reefer" "12000" "2025-03-05"
      "Montreal, QC" "Quebec City, QC" in
  let dm : Api.DistanceMatrix := fun _ _ => Api.Element "OK" (Some 450000%Z) in
  let toronto := quoteOf f1 450000 in
  let montreal := quoteOf f2 450000 in
  let page := setFilters (Filters.mk "mont" "" "") (createAll dm [f1; f2] initial) in
  let s := QuoteHistory.mkState None 1 in
  let page' := snd (QuoteHistory.onDeleteClick 0 s page) in
  quotes page = [toronto; montreal] /\
  QuoteHistory.currentQuotes (filteredQuotes page) s = [montreal] /\
  quotes page' = [montreal] /\
  persistedLedger page' = Some (storedQuotes [montreal]).
Proof.
  vm_compute. repeat split.
Qed.

End Deletion.

(** ** Pagination of the history *)

Section Pagination.
Import QuoteHistory.

(** [totalPages] is the number of pages of five that hold the list. *)
Lemma totalPages_bounds (l : list Quote.t) :
  (length l <= 5 * totalPages l /\ 5 * totalPages l < length l + 5)%nat.
Proof.
  unfold totalPages, itemsPerPage.
  set (n := Z.of_nat (length l)).
  pose proof (Qle_ceiling (inject_Z n / inject_Z (Z.of_nat 5))) as Hup.
  pose proof (Qceiling_lt (inject_Z n / inject_Z (Z.of_nat 5))) as Hlow.
  set (c := Qceiling (inject_Z n / inject_Z (Z.of_nat 5))) in *.
  assert (Hd : (inject_Z n / inject_Z (Z.of_nat 5) * inject_Z 5 == inject_Z n)%Q)
    by (change (Z.of_nat 5) with 5%Z; field).
  apply (Qmult_le_r _ _ (inject_Z 5)) in Hup; [| reflexivity].
  apply (Qmult_lt_r _ _ (inject_Z 5)) in Hlow; [| reflexivity].
  rewrite Hd in Hup, Hlow.
  rewrite <- inject_Z_mult in Hup, Hlow.
  rewrite <- Zle_Qle in Hup. rewrite <- Zlt_Qlt in Hlow.
  subst n. lia.
Qed.

Lemma currentQuotes_chunk (l : list Quote.t) (e : option nat) (p : nat) :
  currentQuotes l (mkState e (S p)) = take 5 (drop (p * 5) l).
Proof.
  unfold currentQuotes, slice, endIndex, startIndex, itemsPerPage.
  cbn [currentPage].
  replace ((S p - 1) * 5)%nat with (p * 5)%nat by lia.
  replace (p * 5 + 5 - p * 5)%nat with 5%nat by lia. reflexivity.
Qed.

Lemma chunks_concat (k : nat) (l : list Quote.t) :
  (length l <= 5 * k)%nat ->
  concat (map (fun p => take 5 (drop (p * 5) l)) (seq 0 k)) = l.
Proof.
  revert l. induction k as [| k IH]; intros l Hl.
  - destruct l; [reflexivity | cbn in Hl; lia].
  - cbn [seq map concat]. rewrite <- seq_shift, map_map.
    rewrite (map_ext _ (fun p => take 5 (drop (p * 5) (drop 5 l)))).
    + rewrite IH; [apply take_drop |]. rewrite length_drop. lia.
    + intros p. rewrite drop_drop. f_equal; f_equal; lia.
Qed.

(** X1. The pages of the history split the list it is given: page 1 up to
    page [totalPages], one after the other, give back the whole list in
    order; no page holds more than five quotes; a page is empty exactly when
    its number is beyond [totalPages]. *)
Theorem pages_partition (l : list Quote.t) (e : option nat) (p : nat) :
  concat (map (fun p => currentQuotes l (mkState e (S p))) (seq 0 (totalPages l)))
    = l /\
  (length (currentQuotes l (mkState e (S p))) <= 5)%nat /\
  (currentQuotes l (mkState e (S p)) = [] <-> (totalPages l <= p)%nat).
Proof.
  pose proof (totalPages_bounds l) as [Hup Hlow].
  split; [| split].
  - rewrite (map_ext _ (fun p => take 5 (drop (p * 5) l)))
      by (intros; apply currentQuotes_chunk).
    apply chunks_concat, Hup.
  - rewrite currentQuotes_chunk, length_take. lia.
  - rewrite currentQuotes_chunk. split.
    + intros H. apply (f_equal length) in H.
      rewrite length_take, length_drop in H. cbn [length] in H. lia.
    + intros H. rewrite drop_ge by lia. reflexivity.
Qed.



End Pagination.

(** ** The events of the history tab *)

Section HistoryEvents.
Import HomePage QuoteHistory.




End HistoryEvents.

(** ** The page as a whole *)

Section WholePage.
Import HomePage.













End WholePage.

(** ** A session with the page *)

Section Session.
Import HomePage.




End Session.

(** ** More on the rate calculator *)

Section Rates.
Local Open Scope Q_scope.

Lemma calculateTotal_values (distance weight multiplier : Q) (equipmentType : string) :
  rateCardMultiplier equipmentType = Some multiplier ->
  exists b c f k : Q,
    Api.calculateTotal (Fin distance) (Fin weight) equipmentType =
    {| Breakdown.total := Fin (b + c + f + k);
       Breakdown.baseRate := Fin b;
       Breakdown.weightFactor := Fin k;
       Breakdown.fuelSurcharge := Fin f;
       Breakdown.equipmentCharge := Fin c |} /\
    b == 1.616 * distance /\
    c == 1.616 * distance * multiplier /\
    f == (1.616 * distance + 1.616 * distance * multiplier) * rateCardFuel weight /\
    k == Qmax 0 (weight - 10000) / 100 * 0.10.
Proof.
  intros Hm.
  destruct (calculateTotal_finite distance weight equipmentType)
    as (b & c & f & k & E); [apply recognized_multiplier; eauto |].
  destruct (calculateTotal_steps distance weight multiplier equipmentType Hm)
    as (Hb & Hc & Hf & Hk).
  rewrite E in Hb, Hc, Hf, Hk. cbn in Hb, Hc, Hf, Hk.
  exists b, c, f, k. auto.
Qed.

Lemma rateCardMultiplier_nonneg (e : string) (m : Q) :
  rateCardMultiplier e = Some m -> 0 <= m.
Proof.
  unfold rateCardMultiplier.
  destruct (String.eqb e "dry_van"); [intros H; injection H as <-; discriminate |].
  destruct (String.eqb e "reefer"); [intros H; injection H as <-; discriminate |].
  destruct (String.eqb e "flatbed"); [intros H; injection H as <-; discriminate |].
  discriminate.
Qed.

Lemma rateCardFuel_pos (w : Q) : 0 <= rateCardFuel w.
Proof. unfold rateCardFuel. destruct (Qlt_le_dec w 10000); discriminate. Qed.

Lemma rateCardFuel_mono (w w' : Q) : w <= w' -> rateCardFuel w <= rateCardFuel w'.
Proof.
  intros H. unfold rateCardFuel.
  destruct (Qlt_le_dec w 10000) as [H1 | H1], (Qlt_le_dec w' 10000) as [H2 | H2];
    try discriminate.
  exfalso. apply (Qlt_not_le _ _ H2). eapply Qle_trans; eassumption.
Qed.

Lemma weightFactor_nonneg (w : Q) : 0 <= Qmax 0 (w - 10000) / 100 * 0.10.
Proof.
  apply Qmult_le_0_compat; [| discriminate].
  apply Qle_shift_div_l; [reflexivity |]. rewrite Qmult_0_l. apply Q.le_max_l.
Qed.

Lemma weightFactor_mono (w w' : Q) :
  w <= w' ->
  Qmax 0 (w - 10000) / 100 * 0.10 <= Qmax 0 (w' - 10000) / 100 * 0.10.
Proof.
  intros H. apply Qmult_le_compat_r; [| discriminate].
  apply Qmult_le_compat_r; [| discriminate].
  apply Q.max_le_compat_l. apply Qplus_le_compat; [exact H | apply Qle_refl].
Qed.

(** X5. For a distance >= 0, a finite weight and a recognized equipment
    type, no amount of the breakdown is negative: base rate, equipment
    charge, fuel surcharge, weight factor and total are all >= 0. *)
Theorem calculateTotal_amounts_not_negative (distance weight : Q)
    (equipmentType : string) :
  0 <= distance -> recognized equipmentType ->
  let b := Api.calculateTotal (Fin distance) (Fin weight) equipmentType in
  nonNegative (Breakdown.baseRate b) /\
  nonNegative (Breakdown.equipmentCharge b) /\
  nonNegative (Breakdown.fuelSurcharge b) /\
  nonNegative (Breakdown.weightFactor b) /\
  nonNegative (Breakdown.total b).
Proof.
  intros Hd He. apply recognized_multiplier in He as [m Hm].
  destruct (calculateTotal_values distance weight m equipmentType Hm)
    as (b & c & f & k & E & Hb & Hc & Hf & Hk).
  pose proof (rateCardMultiplier_nonneg _ _ Hm) as Hm0.
  assert (Hx : 0 <= 1.616 * distance).
  { apply Qmult_le_0_compat; [discriminate | exact Hd]. }
  assert (Hy : 0 <= 1.616 * distance * m) by now apply Qmult_le_0_compat.
  assert (Hb0 : 0 <= b) by now rewrite Hb.
  assert (Hc0 : 0 <= c) by now rewrite Hc.
  assert (Hf0 : 0 <= f).
  { rewrite Hf. apply Qmult_le_0_compat; [| apply rateCardFuel_pos].
    rewrite <- (Qplus_0_l 0). now apply Qplus_le_compat. }
  assert (Hk0 : 0 <= k) by (rewrite Hk; apply weightFactor_nonneg).
  rewrite E. cbn. repeat split; try assumption.
  rewrite <- (Qplus_0_l 0). apply Qplus_le_compat; [| exact Hk0].
  rewrite <- (Qplus_0_l 0). apply Qplus_le_compat; [| exact Hf0].
  rewrite <- (Qplus_0_l 0). now apply Qplus_le_compat.
Qed.

Lemma calculateTotal_amounts_not_negative_witness :
  let b := Api.calculateTotal (Fin 450) (Fin (-20)) "reefer" in
  nonNegative (Breakdown.baseRate b) /\
  nonNegative (Breakdown.equipmentCharge b) /\
  nonNegative (Breakdown.fuelSurcharge b) /\
  nonNegative (Breakdown.weightFactor b) /\
  nonNegative (Breakdown.total b).
Proof.
  apply (calculateTotal_amounts_not_negative 450 (-20) "reefer").
  - discriminate.
  - right; left; reflexivity.
Defined.

(** X6. The price never goes down with the load: for a recognized equipment
    type, a longer distance (from a distance >= 0) and a heavier weight give
    a total that is at least as high. *)
Theorem calculateTotal_monotone (distance distance' weight weight' : Q)
    (equipmentType : string) :
  0 <= distance -> distance <= distance' -> weight <= weight' ->
  recognized equipmentType ->
  atMost
    (Breakdown.total (Api.calculateTotal (Fin distance) (Fin weight) equipmentType))
    (Breakdown.total (Api.calculateTotal (Fin distance') (Fin weight') equipmentType)).
Proof.
  intros Hd Hdd Hww He. apply recognized_multiplier in He as [m Hm].
  destruct (calculateTotal_values distance weight m equipmentType Hm)
    as (b & c & f & k & E & Hb & Hc & Hf & Hk).
  destruct (calculateTotal_values distance' weight' m equipmentType Hm)
    as (b' & c' & f' & k' & E' & Hb' & Hc' & Hf' & Hk').
  pose proof (rateCardMultiplier_nonneg _ _ Hm) as Hm0.
  rewrite E, E'. cbn.
  assert (Hbb : 1.616 * distance <= 1.616 * distance').
  { rewrite !(Qmult_comm 1.616). apply Qmult_le_compat_r; [exact Hdd | discriminate]. }
  assert (Hb0 : 0 <= 1.616 * distance).
  { apply Qmult_le_0_compat; [discriminate | exact Hd]. }
  assert (Hcc : 1.616 * distance * m <= 1.616 * distance' * m).
  { apply Qmult_le_compat_r; assumption. }
  assert (Hc0 : 0 <= 1.616 * distance * m) by now apply Qmult_le_0_compat.
  rewrite Hb, Hc, Hf, Hk, Hb', Hc', Hf', Hk'.
  apply Qplus_le_compat; [| now apply weightFactor_mono].
  apply Qplus_le_compat; [now apply Qplus_le_compat |].
  apply Qmult_le_compat_nonneg.
  - split; [| now apply Qplus_le_compat].
    rewrite <- (Qplus_0_l 0). now apply Qplus_le_compat.
  - split; [apply rateCardFuel_pos | now apply rateCardFuel_mono].
Qed.

Lemma calculateTotal_monotone_witness :
  atMost
    (Breakdown.total (Api.calculateTotal (Fin 100) (Fin 9999) "flatbed"))
    (Breakdown.total (Api.calculateTotal (Fin 100) (Fin 10000) "flatbed")).
Proof.
  apply (calculateTotal_monotone 100 100 9999 10000 "flatbed");
    try discriminate.
  right; right; reflexivity.
Defined.

End Rates.

(** ** More on the handler and on quote creation *)

Section Answers.
Import HomePage.
Local Open Scope Q_scope.

(** X7. What the answers of the handler carry. A method other than POST is
    answered 405 "Method not allowed." without a request to the distance
    service. An answer with a quote has status 201 and is a success; it
    answers a POST request with the five fields present, repeats these
    fields and carries the [days] of its distance. An answer with an error
    message is no success and its message is not empty. *)
Theorem handler_answers (dm : Api.DistanceMatrix) (req : Api.Request) :
  let r := fst (Api.handler dm req) in
  (if String.eqb (Api.method req) "POST" then Api.status r <> 405%Z
   else Api.handler dm req
        = (Api.mkResponse 405 (Api.error "Method not allowed."), [])) /\
  match Api.json r with
  | Api.quote q =>
      Api.status r = 201%Z /\ Api.ok r = true /\ Api.method req = "POST" /\
      bodyFilled (Api.body req) = true /\
      Quote.origin q = Api.origin (Api.body req) /\
      Quote.destination q = Api.destination (Api.body req) /\
      Quote.equipmentType q = Api.equipmentType (Api.body req) /\
      Quote.weight q = Api.weight (Api.body req) /\
      Quote.pickupDate q = Api.pickupDate (Api.body req) /\
      Quote.days q = Api.days (Quote.distance q)
  | Api.error m => Api.ok r = false /\ nonEmpty m = true
  end.
Proof.
  unfold Api.handler, bodyFilled.
  destruct (String.eqb_spec (Api.method req) "POST") as [Hm | Hm]; cbn [negb].
  - destruct (Api.body req) as [o d e w p c]. cbn [Api.origin Api.destination
      Api.equipmentType Api.weight Api.pickupDate].
    destruct (nonEmpty o), (nonEmpty d), (nonEmpty e), (ToBoolean w),
      (nonEmpty p); cbn [negb orb andb];
      try (split; [discriminate | split; reflexivity]).
    destruct (if isNull c then _ else _) as [[| | n] cs];
      (split; [discriminate |]); cbn; repeat split; exact Hm.
  - split; [reflexivity | split; reflexivity].
Qed.

(** X8. A distance hint in the request is honoured: with every field
    present and [cacheDistance] a number, the handler makes no request to the
    distance service, whatever that service would answer, and quotes exactly
    the hinted distance. *)
Theorem handler_honours_hint (dm : Api.DistanceMatrix) (o d e p : string)
    (w : Value) (hint : Number) :
  nonEmpty o = true -> nonEmpty d = true -> nonEmpty e = true ->
  ToBoolean w = true -> nonEmpty p = true ->
  let answer :=
    Api.handler dm (Api.mkRequest "POST" (Api.mkBody o d e w p (number hint))) in
  snd answer = [] /\
  Api.status (fst answer) = 201%Z /\
  exists q, Api.json (fst answer) = Api.quote q /\ Quote.distance q = hint /\
            Quote.days q = Api.days hint.
Proof.
  intros Ho Hd He Hw Hp.
  rewrite (handler_fields_present dm o d e p w (number hint) Ho Hd He Hw Hp).
  cbn. repeat split. eexists. repeat split.
Qed.

Lemma handler_honours_hint_witness :
  let answer :=
    Api.handler (fun _ _ => Api.FetchError)
      (Api.mkRequest "POST"
         (Api.mkBody "Toronto, ON" "Ottawa, ON" "reefer" (number (Fin 15000))
            "2025-03-01" (number (Fin 450)))) in
  snd answer = [] /\
  Api.status (fst answer) = 201%Z /\
  exists q, Api.json (fst answer) = Api.quote q /\ Quote.distance q = Fin 450 /\
            Quote.days q = Api.days (Fin 450).
Proof.
  apply (handler_honours_hint (fun _ _ => Api.FetchError)); reflexivity.
Defined.

(** X9. The percentages shown in the history are the ones charged: for an
    equipment type of the table, the equipment charge is the base rate times
    the percentage of its [equipmentCharges] label, and the fuel surcharge is
    base rate plus equipment charge times the percentage that
    [getFuelSurchargePercent] shows for the weight. *)
Theorem labels_match_rates (distance weight : Q) (equipmentType label : string) :
  Utils.equipmentCharges equipmentType = Some label ->
  let b := Api.calculateTotal (Fin distance) (Fin weight) equipmentType in
  exists equipmentRate fuelRate : Q,
    percentage label = Fin equipmentRate /\
    percentage (Utils.getFuelSurchargePercent (Fin weight)) = Fin fuelRate /\
    denotes (Breakdown.equipmentCharge b) (1.616 * distance * equipmentRate) /\
    denotes (Breakdown.fuelSurcharge b)
      ((1.616 * distance + 1.616 * distance * equipmentRate) * fuelRate).
Proof.
  intros Hl.
  assert (Hm : exists m p, rateCardMultiplier equipmentType = Some m /\
                           percentage label = Fin p /\ p == m).
  { unfold Utils.equipmentCharges in Hl. unfold rateCardMultiplier.
    destruct (String.eqb equipmentType "dry_van");
      [injection Hl as <-; do 2 eexists; split; [reflexivity |];
       split; reflexivity |].
    destruct (String.eqb equipmentType "reefer");
      [injection Hl as <-; do 2 eexists; split; [reflexivity |];
       split; reflexivity |].
    destruct (String.eqb equipmentType "flatbed");
      [injection Hl as <-; do 2 eexists; split; [reflexivity |];
       split; reflexivity |].
    discriminate. }
  destruct Hm as (m & p & Hm & Hp & Epm).
  assert (Hf : exists r, percentage (Utils.getFuelSurchargePercent (Fin weight))
                         = Fin r /\ r == rateCardFuel weight).
  { unfold Utils.getFuelSurchargePercent, rateCardFuel, JS.lt.
    destruct (Qlt_le_dec weight 10000) as [H | H].
    - apply Qle_bool_false in H. rewrite H. cbn [negb].
      eexists; split; reflexivity.
    - apply Qle_bool_iff in H. rewrite H. cbn [negb].
      eexists; split; reflexivity. }
  destruct Hf as (r & Hr & Er).
  destruct (calculateTotal_steps distance weight m equipmentType Hm)
    as (_ & Hc & Hfu & _).
  exists p, r. split; [exact Hp |]. split; [exact Hr |].
  destruct (Breakdown.equipmentCharge _) as [c |]; [| destruct Hc].
  destruct (Breakdown.fuelSurcharge _) as [f |]; [| destruct Hfu].
  cbn in *. split.
  - rewrite Hc, Epm. reflexivity.
  - rewrite Hfu, Epm, Er. reflexivity.
Qed.

Lemma labels_match_rates_witness :
  let b := Api.calculateTotal (Fin 450) (Fin 12000) "reefer" in
  exists equipmentRate fuelRate : Q,
    percentage "30%" = Fin equipmentRate /\
    percentage (Utils.getFuelSurchargePercent (Fin 12000)) = Fin fuelRate /\
    denotes (Breakdown.equipmentCharge b) (1.616 * 450 * equipmentRate) /\
    denotes (Breakdown.fuelSurcharge b)
      ((1.616 * 450 + 1.616 * 450 * equipmentRate) * fuelRate).
Proof.
  apply (labels_match_rates 450 12000 "reefer" "30%"). reflexivity.
Defined.

End Answers.

(** ** The outcome of a quote creation *)

Section Outcome.
Import HomePage.

(** A form that fails a validation: an error message, no request, nothing
    else changed. *)
Lemma handleCreateQuote_rejected (dm : Api.DistanceMatrix) (st : State) :
  accepted (form st) = false ->
  snd (handleCreateQuote dm st) = [] /\
  nonEmpty (errorMessage (fst (handleCreateQuote dm st))) = true /\
  quotes (fst (handleCreateQuote dm st)) = quotes st /\
  localStorage (fst (handleCreateQuote dm st)) = localStorage st.
Proof.
  unfold accepted, formFilled, weightPositive, locationsConfirmed.
  unfold handleCreateQuote. cbn [form setErrorMessage].
  destruct (form st) as [o d e w p oi di].
  cbn [Form.origin Form.destination Form.equipmentType Form.weight
       Form.pickupDate Form.originInputValue Form.destinationInputValue].
  destruct (nonEmpty o) eqn:Ho; [| intros _; cbn; auto].
  destruct (nonEmpty d) eqn:Hd; [| intros _; cbn; auto].
  destruct (nonEmpty e) eqn:He; [| intros _; cbn; auto].
  destruct (nonEmpty w) eqn:Hw; [| intros _; cbn; auto].
  destruct (nonEmpty p) eqn:Hp; [| intros _; cbn; auto].
  cbn [negb orb andb].
  destruct (parseFloat w) as [x |] eqn:Ex.
  - unfold JS.gt, JS.lt, JS.le.
    destruct (Qle_bool x 0) eqn:Hx; [intros _; cbn; auto |].
    cbn [negb andb].
    destruct (String.eqb o oi); [| intros _; cbn; auto].
    destruct (String.eqb d di); [discriminate | intros _; cbn; auto].
  - intros _. cbn [JS.le toJSON].
    destruct (String.eqb o oi); [| cbn; auto].
    destruct (String.eqb d di); [| cbn; auto].
    cbn [negb orb]. unfold Api.handler. cbn [Api.method Api.body].
    rewrite Ho, Hd, He, Hp. cbn. auto.
Qed.

(** Over a store that accepts every write, [Quota.handleCreateQuote] is
    [handleCreateQuote]. *)
Lemma handleCreateQuote_accepting (dm : Api.DistanceMatrix) (st : State) :
  Quota.handleCreateQuote (fun _ _ _ => None) dm st = handleCreateQuote dm st.
Proof.
  unfold Quota.handleCreateQuote, handleCreateQuote.
  destruct (form (setErrorMessage "" st)) as [o d e w p oi di].
  destruct (_ || _); [reflexivity |].
  destruct (JS.le _ _); [reflexivity |].
  destruct (negb (String.eqb o oi) || negb (String.eqb d di)); [reflexivity |].
  destruct (Api.handler dm _) as [response calls].
  destruct (negb (Api.ok response)); [reflexivity |].
  destruct (Api.json response) as [q | m]; [| reflexivity].
  destruct (isNull _ && truthy _); reflexivity.
Qed.

(** A press over a store that can refuse a write ends as over a store that
    accepts them all, or in the catch block after a refused write: then no
    quote is shown, the ledger is as it was, and of the store nothing but
    the two distances of the route can have changed. *)
Lemma handleCreateQuote_refused (refuses : Quota.Policy)
    (dm : Api.DistanceMatrix) (st : State) :
  let o := Form.origin (form st) in
  let d := Form.destination (form st) in
  Quota.handleCreateQuote refuses dm st = handleCreateQuote dm st
  \/ exists (message : string) (st2 : State),
       fst (Quota.handleCreateQuote refuses dm st)
       = setLoading false (Quota.onError message st2) /\
       quotes st2 = quotes st /\ quote st2 = None /\
       forall k, k <> routeKey o d -> k <> routeKey d o ->
                 localStorage st2 !! k = localStorage st !! k.
Proof.
  unfold Quota.handleCreateQuote, handleCreateQuote.
  cbn [form setErrorMessage].
  destruct (form st) as [o d e w p oi di].
  cbn [Form.origin Form.destination].
  destruct (_ || _); [now left |].
  destruct (JS.le _ _); [now left |].
  destruct (negb (String.eqb o oi) || negb (String.eqb d di)); [now left |].
  destruct (Api.handler dm _) as [response calls].
  destruct (negb (Api.ok response)); [now left |].
  destruct (Api.json response) as [q | m]; [| now left].
  unfold Quota.andThen, Quota.setItem.
  destruct (isNull _ && truthy _);
    repeat (match goal with
            | |- context [refuses ?a ?b ?c] =>
                destruct (refuses a b c) as [? |]
            end;
            cbn [localStorage setQuote setLoading setErrorMessage quotes
                 HomePage.setItem]);
    first
      [ now left
      | right; eexists _, _; split; [reflexivity |];
        cbn [localStorage setQuote setLoading setErrorMessage quotes quote
             HomePage.setItem];
        split; [reflexivity |]; split; [reflexivity |];
        intros k Hk Hk'; rewrite ?lookup_insert_ne by congruence; reflexivity ].
Qed.

(** A press that ends with an error message shows no new quote. *)
Lemma handleCreateQuote_failed_quote (dm : Api.DistanceMatrix) (st : State) :
  nonEmpty (errorMessage (fst (handleCreateQuote dm st))) = true ->
  quote (fst (handleCreateQuote dm st)) = None
  \/ quote (fst (handleCreateQuote dm st)) = quote st.
Proof.
  unfold handleCreateQuote. cbn [form setErrorMessage].
  destruct (form st) as [o d e w p oi di].
  destruct (_ || _); [now right |].
  destruct (JS.le _ _); [now right |].
  destruct (negb (String.eqb o oi) || negb (String.eqb d di)); [now right |].
  destruct (Api.handler dm _) as [response calls].
  destruct (negb (Api.ok response)); [now left |].
  destruct (Api.json response) as [q | m]; [| now left].
  destruct (isNull _ && truthy _); discriminate.
Qed.

(** X10. A press on the quote button is all or nothing for the ledger, also
    when the store refuses a write. Either it ends without an error message,
    shows a quote, and the ledger holds that quote, is one quote longer and
    is persisted; or it ends with an error message, shows no new quote, and
    the ledger is as before, in memory and in the store. After a failed press
    the store itself is as before, unless the press ended with "Calculation
    failed: ..." after a refused write: then the two distances of the route
    are the only entries that can have changed. *)
Theorem creation_all_or_nothing (refuses : Quota.Policy)
    (dm : Api.DistanceMatrix) (st : State) :
  let st' := fst (Quota.handleCreateQuote refuses dm st) in
  let o := Form.origin (form st) in
  let d := Form.destination (form st) in
  (errorMessage st' = "" /\
   exists q, quote st' = Some q /\ In q (quotes st') /\
             length (quotes st') = S (length (quotes st)) /\
             persistedLedger st' = Some (storedQuotes (quotes st')))
  \/ (nonEmpty (errorMessage st') = true /\
      (quote st' = None \/ quote st' = quote st) /\
      quotes st' = quotes st /\
      persistedLedger st' = persistedLedger st /\
      (localStorage st' = localStorage st
       \/ (exists m, errorMessage st' = "Calculation failed: " +:+ m) /\
          forall k, k <> routeKey o d -> k <> routeKey d o ->
                    localStorage st' !! k = localStorage st !! k)).
Proof.
  cbv zeta.
  destruct (handleCreateQuote_refused refuses dm st)
    as [-> | (message & st2 & -> & Hq & Hn & Hk)].
  - destruct (accepted (form st)) eqn:Hacc.
    + destruct (handleCreateQuote_ledger dm st Hacc)
        as [(He & Hl & Hs) | (q & Hq & He & Hl & Hp)].
      * right. split; [exact He |].
        split; [apply handleCreateQuote_failed_quote; exact He |].
        split; [exact Hl |].
        split; [unfold persistedLedger; now rewrite Hs | now left].
      * left. split; [exact He |]. exists q.
        split; [exact Hq |].
        split; [| split; [| exact Hp]]; rewrite Hl; unfold updatedQuotes.
        -- eapply Permutation_in; [symmetry; apply sort_Permutation | now left].
        -- rewrite (Permutation_length (sort_Permutation (q :: quotes st))).
           reflexivity.
    + right. destruct (handleCreateQuote_rejected dm st Hacc) as (_ & He & Hl & Hs).
      split; [exact He |].
      split; [apply handleCreateQuote_failed_quote; exact He |].
      split; [exact Hl |].
      split; [unfold persistedLedger; now rewrite Hs | now left].
  - right. cbn [errorMessage setLoading Quota.onError setErrorMessage quotes
                quote localStorage].
    split; [reflexivity |]. split; [now left |]. split; [exact Hq |].
    split.
    + unfold persistedLedger. apply Hk; intros E; symmetry in E;
        exact (routeKey_not_quotes _ _ E).
    + right. split; [eexists; reflexivity | exact Hk].
Qed.
(** The store refuses the ledger of a first quote after it accepted the two
    distances: the press ends with the message of the catch block, the
    distances are in the store, the ledger is not. *)
Example refused_ledger_write :
  let refuses : Quota.Policy :=
    fun _ key _ =>
      if String.eqb key "quotes" then Some "The quota has been exceeded."
      else None in
  let dm : Api.DistanceMatrix := fun _ _ => Api.Element "OK" (Some 450000%Z) in
  let st :=
    mkState (Form.mk "Toronto, ON" "Ottawa, ON" "reefer" "15000" "2025-03-01"
               "Toronto, ON" "Ottawa, ON")
      None [] (Filters.mk "" "" "") false "" ∅ in
  let st' := fst (Quota.handleCreateQuote refuses dm st) in
  errorMessage st' = "Calculation failed: The quota has been exceeded." /\
  quote st' = None /\ quotes st' = [] /\ persistedLedger st' = None /\
  getItem "Toronto, ON-Ottawa, ON" st'
    = Some (storedNumber (Fin (450000 / 1000))) /\
  getItem "Ottawa, ON-Toronto, ON" st'
    = Some (storedNumber (Fin (450000 / 1000))).
Proof. vm_compute. repeat split. Qed.

(** X11. The distance service is asked exactly when the form passes the
    validations and the route (origin, destination) has no entry in the
    cache; then it is asked once, for that route. *)
Theorem distance_requested_when_needed (dm : Api.DistanceMatrix) (st : State) :
  snd (handleCreateQuote dm st) =
  if accepted (form st)
     && bool_decide (getItem (routeKey (Form.origin (form st))
                                (Form.destination (form st))) st = None)
  then [(Form.origin (form st), Form.destination (form st))]
  else [].
Proof.
  destruct (accepted (form st)) eqn:Hacc; cbn [andb].
  - destruct (accepted_inv _ Hacc) as (w & _ & _ & _ & _ & _ & Hw & _).
    rewrite (handleCreateQuote_accepted dm st w Hacc Hw). cbv zeta.
    destruct (getItem _ st) as [[n | l] |]; cbn.
    + reflexivity.
    + reflexivity.
    + unfold Api.getDistance.
      destruct (match dm _ _ with Api.FetchError => _ | _ => _ end);
        reflexivity.
  - apply handleCreateQuote_rejected, Hacc.
Qed.

(** X12. A creation served from the cache is silent: the distance service is
    not asked, the distance cache is left exactly as it was, and the new
    quote carries the cached distance. *)
Theorem cache_hit_is_silent (dm : Api.DistanceMatrix) (st : State) (n : Number) :
  accepted (form st) = true ->
  getItem (routeKey (Form.origin (form st)) (Form.destination (form st))) st
    = Some (storedNumber n) ->
  let st' := fst (handleCreateQuote dm st) in
  snd (handleCreateQuote dm st) = [] /\
  distanceCache st' = distanceCache st /\
  exists q, quote st' = Some q /\ Quote.distance q = n /\
            quotes st' = updatedQuotes q (quotes st).
Proof.
  intros Hacc Hhit.
  destruct (handleCreateQuote_hit dm st n Hacc Hhit) as (q & _ & _ & Hq & E).
  rewrite E. cbn [fst snd]. split; [reflexivity |]. split.
  - unfold distanceCache. cbn. apply delete_insert_eq.
  - exists q. repeat split. exact Hq.
Qed.

Lemma cache_hit_is_silent_witness :
  let st :=
    mkState (Form.mk "Toronto, ON" "Ottawa, ON" "reefer" "15000" "2025-03-01"
               "Toronto, ON" "Ottawa, ON")
      None [] (Filters.mk "" "" "") false ""
      (<["Toronto, ON-Ottawa, ON" := storedNumber (Fin 450)]> ∅) in
  let dm : Api.DistanceMatrix := fun _ _ => Api.FetchError in
  let st' := fst (handleCreateQuote dm st) in
  snd (handleCreateQuote dm st) = [] /\
  distanceCache st' = distanceCache st /\
  exists q, quote st' = Some q /\ Quote.distance q = Fin 450 /\
            quotes st' = updatedQuotes q (quotes st).
Proof.
  intros st dm. apply (cache_hit_is_silent dm st (Fin 450)); reflexivity.
Defined.

(** X13. When the distance service reports that no route exists, the page
    shows "No route between <origin> and <destination> available.", shows no
    quote, has asked the service once, and leaves the ledger and the store
    unchanged. *)
Theorem no_route_reported (dm : Api.DistanceMatrix) (st : State)
    (value : option Z) :
  accepted (form st) = true ->
  getItem (routeKey (Form.origin (form st)) (Form.destination (form st))) st
    = None ->
  dm (Form.origin (form st)) (Form.destination (form st))
    = Api.Element "ZERO_RESULTS" value ->
  let st' := fst (handleCreateQuote dm st) in
  snd (handleCreateQuote dm st)
    = [(Form.origin (form st), Form.destination (form st))] /\
  errorMessage st' =
    "No route between " +:+ Form.origin (form st) +:+ " and "
    +:+ Form.destination (form st) +:+ " available." /\
  quote st' = None /\ loading st' = false /\
  quotes st' = quotes st /\ localStorage st' = localStorage st.
Proof.
  intros Hacc Hmiss Hdm.
  rewrite (handleCreateQuote_no_distance dm st Hacc Hmiss);
    [repeat split | right; left; eauto].
Qed.

Lemma no_route_reported_witness :
  let st :=
    mkState (Form.mk "Toronto, ON" "Honolulu, HI" "reefer" "15000" "2025-03-01"
               "Toronto, ON" "Honolulu, HI")
      None [] (Filters.mk "" "" "") false "" ∅ in
  let dm : Api.DistanceMatrix := fun _ _ => Api.Element "ZERO_RESULTS" None in
  let st' := fst (handleCreateQuote dm st) in
  snd (handleCreateQuote dm st) = [("Toronto, ON", "Honolulu, HI")] /\
  errorMessage st' = "No route between Toronto, ON and Honolulu, HI available." /\
  quote st' = None /\ loading st' = false /\
  quotes st' = quotes st /\ localStorage st' = localStorage st.
Proof.
  intros st dm. apply (no_route_reported dm st None); reflexivity.
Defined.

End Outcome.

(** ** The filtered view *)

Section Filtering.
Import HomePage.

Lemma toLowerCase_length (s : string) :
  String.length (toLowerCase s) = String.length s.
Proof. induction s as [| c s IH]; cbn; [reflexivity | now rewrite IH]. Qed.

Lemma filter_sublist (f : Quote.t -> bool) (l : list Quote.t) :
  sublist (List.filter f l) l.
Proof.
  induction l as [| x l IH]; cbn [List.filter]; [constructor |].
  destruct (f x); now constructor.
Qed.

Lemma filter_ledgerSorted (f : Quote.t -> bool) (l : list Quote.t) :
  ledgerSorted l -> ledgerSorted (List.filter f l).
Proof.
  unfold ledgerSorted. induction l as [| x l IH]; intros [Hd Hs]; [auto |].
  cbn [forallb] in Hd. apply andb_true_iff in Hd as [Hx Hd].
  apply StronglySorted_inv in Hs as [Hs Hall].
  destruct (IH (conj Hd Hs)) as [Hd' Hs'].
  cbn [List.filter]. destruct (f x); [| auto].
  split; [cbn [forallb]; now rewrite Hx, Hd' |].
  constructor; [exact Hs' |].
  rewrite List.Forall_forall in *. intros y Hy.
  apply filter_In in Hy as [Hy _]. now apply Hall.
Qed.

(** X14. Filtering never reorders: the filtered view is a sub-list of the
    ledger, with every quote that matches the filters and no other, in the
    order of the ledger; over a sorted ledger the view is sorted by pickup
    date too. *)
Theorem filtered_view_in_ledger_order (page : State) (q : Quote.t) :
  ledgerSorted (quotes page) ->
  sublist (filteredQuotes page) (quotes page) /\
  ledgerSorted (filteredQuotes page) /\
  (In q (filteredQuotes page) <->
   In q (quotes page) /\ matches (filters page) q = true).
Proof.
  intros Hs. unfold filteredQuotes.
  split; [apply filter_sublist |].
  split; [now apply filter_ledgerSorted | apply filter_In].
Qed.

Lemma filtered_view_in_ledger_order_witness :
  let f p o := Form.mk o "Ottawa, ON" "dry_van" "5000" p o "Ottawa, ON" in
  let a := quoteOf (f "2025-03-01" "Kingston, ON") 196000 in
  let b := quoteOf (f "2025-03-05" "Toronto, ON") 450000 in
  let c := quoteOf (f "2025-03-09" "Kingsville, ON") 800000 in
  let page :=
    mkState (f "" "") None [a; b; c] (Filters.mk "KINGS" "" "") false "" ∅ in
  filteredQuotes page = [a; c] /\
  sublist (filteredQuotes page) (quotes page) /\
  ledgerSorted (filteredQuotes page) /\
  (In b (filteredQuotes page) <->
   In b (quotes page) /\ matches (filters page) b = true).
Proof.
  intros f a b c page. split; [reflexivity |].
  apply (filtered_view_in_ledger_order page b).
  split; [reflexivity |].
  repeat constructor.
Defined.

Lemma sameLetters_length (a b : string) :
  sameLetters a b -> String.length a = String.length b.
Proof.
  unfold sameLetters. intros H.
  rewrite <- (toLowerCase_length a), <- (toLowerCase_length b). now rewrite H.
Qed.

Lemma sameLetters_nonEmpty (a b : string) :
  sameLetters a b -> nonEmpty a = nonEmpty b.
Proof.
  intros H. apply sameLetters_length in H.
  destruct a, b; try reflexivity; discriminate H.
Qed.

(** Whether a quote matches depends on the letters of the filter texts and
    of the addresses, not on their case. *)
Lemma matches_sameLetters (o o' d d' e : string) (q q' : Quote.t) :
  sameLetters o o' -> sameLetters d d' -> sameRoute q q' ->
  matches (Filters.mk o e d) q = matches (Filters.mk o' e d') q'.
Proof.
  intros Ho Hd (Hqo & Hqd & Hqe). unfold matches.
  cbn [Filters.origin Filters.destination Filters.equipment].
  rewrite (sameLetters_length _ _ Ho), (sameLetters_length _ _ Hd).
  rewrite (sameLetters_nonEmpty _ _ Hqo), (sameLetters_nonEmpty _ _ Hqd).
  unfold sameLetters in *. now rewrite Ho, Hd, Hqo, Hqd, Hqe.
Qed.

(** X15. The origin and destination filters ignore letter case, in the
    filter texts and in the addresses of the quotes. Two settings of the
    filters that differ at most in the case of their letters show the same
    quotes of a ledger; and over two ledgers whose quotes differ, one by one,
    at most in the case of the letters of their addresses, they show the
    quotes of the same positions. So "toronto" and "TORONTO" both find a
    quote from "Toronto, ON". *)
Theorem filters_ignore_case (page page' : State) (o o' d d' e : string) :
  sameLetters o o' -> sameLetters d d' ->
  Forall2 sameRoute (quotes page) (quotes page') ->
  filteredQuotes (setFilters (Filters.mk o e d) page)
  = filteredQuotes (setFilters (Filters.mk o' e d') page) /\
  Forall2 sameRoute
    (filteredQuotes (setFilters (Filters.mk o e d) page))
    (filteredQuotes (setFilters (Filters.mk o' e d') page')).
Proof.
  intros Ho Hd Hq. unfold filteredQuotes, setFilters. cbn [filters quotes].
  split.
  - apply filter_ext. intros q.
    apply (matches_sameLetters o o' d d' e q q Ho Hd).
    repeat split.
  - induction Hq as [| q q' l l' Hqq Hl IH]; [constructor |].
    cbn [List.filter].
    rewrite (matches_sameLetters o o' d d' e q q' Ho Hd Hqq).
    destruct (matches (Filters.mk o' e d') q');
      [constructor; assumption | exact IH].
Qed.

Lemma filters_ignore_case_witness :
  let f p o := Form.mk o "Ottawa, ON" "dry_van" "5000" p o "Ottawa, ON" in
  let a := quoteOf (f "2025-03-01" "Toronto, ON") 450000 in
  let b := quoteOf (f "2025-03-05" "Kingston, ON") 196000 in
  let a' := quoteOf (f "2025-03-01" "TORONTO, on") 450000 in
  let b' := quoteOf (f "2025-03-05" "kingston, ON") 196000 in
  let page := mkState (f "" "") None [a; b] (Filters.mk "" "" "") false "" ∅ in
  let page' := mkState (f "" "") None [a'; b'] (Filters.mk "" "" "") false "" ∅ in
  (filteredQuotes (setFilters (Filters.mk "toronto" "" "") page)
   = filteredQuotes (setFilters (Filters.mk "TORONTO" "" "") page) /\
   Forall2 sameRoute
     (filteredQuotes (setFilters (Filters.mk "toronto" "" "") page))
     (filteredQuotes (setFilters (Filters.mk "TORONTO" "" "") page'))) /\
  filteredQuotes (setFilters (Filters.mk "toronto" "" "") page) = [a] /\
  filteredQuotes (setFilters (Filters.mk "TORONTO" "" "") page') = [a'].
Proof.
  intros f a b a' b' page page'.
  split; [| split; reflexivity].
  apply (filters_ignore_case page page' "toronto" "TORONTO" "" "" "").
  - reflexivity.
  - reflexivity.
  - repeat constructor.
Defined.

(** X16. With the origin and destination filters empty, the equipment
    filter shows exactly the quotes of that equipment type: every quote of
    the ledger with the type, and no quote of another type. *)
Theorem equipment_filter_exact (page : State) (e : string) :
  filters page = Filters.mk "" e "" -> nonEmpty e = true ->
  filteredQuotes page
  = List.filter (fun q => String.eqb (Quote.equipmentType q) e) (quotes page)
  /\ Forall (fun q => Quote.equipmentType q = e) (filteredQuotes page).
Proof.
  intros Hf He. unfold filteredQuotes. rewrite Hf.
  assert (E : List.filter (matches (Filters.mk "" e "")) (quotes page)
              = List.filter (fun q => String.eqb (Quote.equipmentType q) e)
                  (quotes page)).
  { apply filter_ext. intros q. unfold matches. cbn.
    destruct e; [discriminate He | reflexivity]. }
  rewrite E. split; [reflexivity |].
  apply List.Forall_forall. intros q Hq. apply filter_In in Hq as [_ Hq].
  now apply String.eqb_eq.
Qed.

Lemma equipment_filter_exact_witness :
  let f e o := Form.mk o "Ottawa, ON" e "5000" "2025-03-01" o "Ottawa, ON" in
  let a := quoteOf (f "reefer" "Kingston, ON") 196000 in
  let b := quoteOf (f "dry_van" "Toronto, ON") 450000 in
  let page :=
    mkState (f "" "") None [a; b] (Filters.mk "" "reefer" "") false "" ∅ in
  filteredQuotes page
  = List.filter (fun q => String.eqb (Quote.equipmentType q) "reefer")
      (quotes page)
  /\ Forall (fun q => Quote.equipmentType q = "reefer") (filteredQuotes page).
Proof.
  intros f a b page. apply (equipment_filter_exact page "reefer"); reflexivity.
Defined.

End Filtering.

(** ** Selecting locations *)

Section Locations.
Import HomePage GoogleAutocomplete.

(** X17. Picking a suggestion confirms a location: after a place was picked
    in the origin input and one in the destination input, in either order and
    whatever was typed before, the form holds the two addresses and its
    locations count as confirmed. *)
Theorem picked_places_are_confirmed (a b typed typed' : string) (st : State) :
  let st1 := originInputChange typed st in
  let st2 := originPlaceChange true (mkPlace (Some a)) st1 in
  let st3 := destinationInputChange typed' st2 in
  let st4 := destinationPlaceChange true (mkPlace (Some b)) st3 in
  Form.origin (form st4) = a /\ Form.destination (form st4) = b /\
  Form.originInputValue (form st4) = a /\
  Form.destinationInputValue (form st4) = b /\
  locationsConfirmed (form st4) = true /\
  quotes st4 = quotes st /\ localStorage st4 = localStorage st.
Proof.
  cbn. unfold locationsConfirmed. cbn. rewrite !String.eqb_refl.
  repeat split.
Qed.

(** X18. A location edited after it was picked is refused: when the text of
    the origin input no longer is the address of the picked place, the quote
    button reports "Invalid locations, please select from dropdown.", asks
    no distance and stores nothing, the other fields being valid. *)
Theorem edited_location_is_refused (dm : Api.DistanceMatrix) (a b typed : string)
    (st : State) :
  nonEmpty a = true -> nonEmpty b = true ->
  nonEmpty (Form.equipmentType (form st)) = true ->
  nonEmpty (Form.weight (form st)) = true ->
  nonEmpty (Form.pickupDate (form st)) = true ->
  weightPositive (form st) = true ->
  typed <> a ->
  let st1 := originPlaceChange true (mkPlace (Some a)) st in
  let st2 := destinationPlaceChange true (mkPlace (Some b)) st1 in
  let st3 := originInputChange typed st2 in
  let st' := fst (handleCreateQuote dm st3) in
  snd (handleCreateQuote dm st3) = [] /\
  errorMessage st' = "Invalid locations, please select from dropdown." /\
  quotes st' = quotes st /\ localStorage st' = localStorage st.
Proof.
  intros Ha Hb He Hw Hp Hpos Hne. cbv zeta.
  unfold handleCreateQuote, originInputChange, destinationPlaceChange,
    originPlaceChange, handlePlaceChange, weightPositive in *.
  cbn [form setErrorMessage setOrigin setDestination setOriginInputValue
       setDestinationInputValue setForm default formatted_address
       Form.origin Form.destination Form.equipmentType Form.weight
       Form.pickupDate Form.originInputValue Form.destinationInputValue].
  unfold id. rewrite Ha, Hb, He, Hw, Hp. cbn [negb orb].
  destruct (parseFloat (Form.weight (form st))) as [x |]; [| discriminate Hpos].
  apply lt_Fin in Hpos.
  assert (Hle : JS.le (Fin x) (Fin 0) = false).
  { unfold JS.le. apply Qle_bool_false. exact Hpos. }
  rewrite Hle.
  assert (Hneq : String.eqb a typed = false).
  { apply String.eqb_neq. intros E. apply Hne. now symmetry. }
  rewrite Hneq. cbn. repeat split.
Qed.

Lemma edited_location_is_refused_witness :
  let st :=
    mkState (Form.mk "" "" "dry_van" "5000" "2025-03-01" "" "")
      None [] (Filters.mk "" "" "") false "" ∅ in
  let dm : Api.DistanceMatrix := fun _ _ => Api.Element "OK" (Some 450000%Z) in
  let st1 := originPlaceChange true (mkPlace (Some "Toronto, ON")) st in
  let st2 := destinationPlaceChange true (mkPlace (Some "Ottawa, ON")) st1 in
  let st3 := originInputChange "Toronto, O" st2 in
  let st' := fst (handleCreateQuote dm st3) in
  snd (handleCreateQuote dm st3) = [] /\
  errorMessage st' = "Invalid locations, please select from dropdown." /\
  quotes st' = quotes st /\ localStorage st' = localStorage st.
Proof.
  intros st dm.
  apply (edited_location_is_refused dm "Toronto, ON" "Ottawa, ON" "Toronto, O" st);
    try reflexivity.
  discriminate.
Defined.

End Locations.

(** ** What the history shows *)

Section Rendering.
Import QuoteHistory.

Lemma totalPages_zero (l : list Quote.t) : totalPages l = 0%nat <-> l = [].
Proof.
  pose proof (totalPages_bounds l) as [Hup Hlow]. split.
  - intros H. rewrite H in Hup. destruct l; [reflexivity | cbn in Hup; lia].
  - intros ->. cbn in Hlow. lia.
Qed.

Lemma map_imap {A B C} (g : B -> C) (f : nat -> A -> B) (l : list A) :
  map g (imap f l) = imap (fun i x => g (f i x)) l.
Proof.
  revert f. induction l as [| x l IH]; intros f; [reflexivity |].
  cbn [imap map]. f_equal. apply IH.
Qed.

(** X19. The history shows one of three things. "No quote history found
    yet." alone, exactly when it is given no quote and no filter is set.
    Otherwise the filter inputs, with "No quotes match your current filter
    criteria." exactly when it is given no quote (a filter is set then), and
    else the cards of the quotes of the current page, each with its index in
    the list given, and the pagination bar. *)
Theorem render_shows (l : list Quote.t) (filters : Filters.t) (s : State) :
  match render l filters s with
  | noHistory => l = [] /\ filters = Filters.mk "" "" ""
  | history noMatch cards pagination =>
      ~ (l = [] /\ filters = Filters.mk "" "" "") /\
      (noMatch = true <-> l = []) /\
      map (fun card => (fst (fst card), snd (fst card))) cards
        = imap (fun i q => ((i + startIndex s)%nat, q)) (currentQuotes l s) /\
      (pagination = None <-> l = [])
  end.
Proof.
  unfold render, isHistoryEmpty, isFilteredEmpty.
  destruct filters as [o e d].
  cbn [Filters.origin Filters.destination Filters.equipment].
  rewrite orb_true_r, andb_true_r.
  destruct l as [| q l].
  - cbn [length Nat.eqb andb].
    assert (Hcur : currentQuotes [] s = []).
    { unfold currentQuotes, slice. now rewrite drop_nil, take_nil. }
    assert (Hshown : forall filters' : Filters.t,
              filters' <> Filters.mk "" "" "" ->
              ~ ([] = @nil Quote.t /\ filters' = Filters.mk "" "" "") /\
              (true = true <-> [] = @nil Quote.t) /\
              map (fun card : Card => (fst (fst card), snd (fst card))) []
                = imap (fun i q => ((i + startIndex s)%nat, q))
                    (currentQuotes [] s) /\
              (@None Pagination = None <-> [] = @nil Quote.t)).
    { intros filters' Hf. rewrite Hcur.
      split; [intros [_ H]; contradiction |]. repeat split. }
    destruct o as [| c o]; [| apply Hshown; discriminate].
    destruct d as [| c d]; [| apply Hshown; discriminate].
    destruct e as [| c e]; [cbn; auto | apply Hshown; discriminate].
  - cbn [length Nat.eqb andb negb].
    assert (Ht : (0 <? totalPages (q :: l))%nat = true).
    { apply Nat.ltb_lt. destruct (totalPages (q :: l)) eqn:E; [| lia].
      apply totalPages_zero in E. discriminate E. }
    rewrite Ht. split; [intros [H _]; discriminate H |].
    split; [split; intros H; discriminate H |].
    split; [| split; intros H; discriminate H].
    apply map_imap.
Qed.

End Rendering.

(** ** Creating a quote and deleting it again *)

Section RoundTrip.
Import HomePage.

Lemma sortInsert_position (x : Quote.t) (l : list Quote.t) :
  exists k : nat,
    sortInsert sortQuotes x l !! k = Some x /\
    delete k (sortInsert sortQuotes x l) = l.
Proof.
  induction l as [| y l (k & Hk & Hd)]; cbn [sortInsert].
  - exists 0%nat. split; reflexivity.
  - destruct (after sortQuotes x y).
    + exists (S k). split; [exact Hk |].
      change (delete (S k) (y :: sortInsert sortQuotes x l))
        with (y :: delete k (sortInsert sortQuotes x l)).
      now rewrite Hd.
    + exists 0%nat. split; reflexivity.
Qed.

(** X20. Deleting a quote that was just created undoes the creation: after
    a creation that succeeded on a sorted ledger, the new quote sits at some
    position of the ledger, and [deleteQuote] at that position gives back the
    ledger as it was, in memory and in the store. *)
Theorem create_then_delete_restores (dm : Api.DistanceMatrix) (st : State) :
  ledgerSorted (quotes st) ->
  errorMessage (fst (handleCreateQuote dm st)) = "" ->
  let st1 := fst (handleCreateQuote dm st) in
  exists (k : nat) (q : Quote.t),
    quote st1 = Some q /\ quotes st1 !! k = Some q /\
    quotes (deleteQuote k st1) = quotes st /\
    persistedLedger (deleteQuote k st1) = Some (storedQuotes (quotes st)).
Proof.
  intros [Hd Hs] He. cbv zeta.
  destruct (accepted (form st)) eqn:Hacc.
  - destruct (handleCreateQuote_ledger dm st Hacc)
      as [(Hn & _) | (q & Hq & _ & Hl & _)].
    + cbv zeta in Hn. rewrite He in Hn. discriminate Hn.
    + cbv zeta in *. unfold updatedQuotes in Hl. cbn [sort] in Hl.
      rewrite (sort_of_sorted _ Hd Hs) in Hl.
      destruct (sortInsert_position q (quotes st)) as (k & Hk & Hdel).
      exists k, q. split; [exact Hq |]. rewrite <- Hl in Hk, Hdel.
      split; [exact Hk |].
      destruct (deleteQuote_ledger k (fst (handleCreateQuote dm st)))
        as (E1 & E2 & _).
      rewrite E2, E1, Hdel. split; reflexivity.
  - destruct (handleCreateQuote_rejected dm st Hacc) as (_ & Hn & _).
    rewrite He in Hn. discriminate Hn.
Qed.

Lemma create_then_delete_restores_witness :
  let f p o := Form.mk o "Ottawa, ON" "dry_van" "5000" p o "Ottawa, ON" in
  let a := quoteOf (f "2025-03-01" "Kingston, ON") 196000 in
  let c := quoteOf (f "2025-03-09" "Sudbury, ON") 483000 in
  let st :=
    mkState (f "2025-03-05" "Toronto, ON") None [a; c] (Filters.mk "" "" "")
      false "" (<["quotes" := storedQuotes [a; c]]> ∅) in
  let dm : Api.DistanceMatrix := fun _ _ => Api.Element "OK" (Some 450000%Z) in
  let st1 := fst (handleCreateQuote dm st) in
  exists (k : nat) (q : Quote.t),
    quote st1 = Some q /\ quotes st1 !! k = Some q /\
    quotes (deleteQuote k st1) = quotes st /\
    persistedLedger (deleteQuote k st1) = Some (storedQuotes (quotes st)).
Proof.
  intros f a c st dm. apply (create_then_delete_restores dm st).
  - split; [reflexivity | repeat constructor].
  - reflexivity.
Defined.

End RoundTrip.

(** ** The label of an equipment type *)

Section EquipmentLabel.
Import QuoteHistory.

Lemma split_not_nil (sep : ascii) (s : string) : split sep s <> [].
Proof.
  destruct s as [| c s]; cbn [split]; [discriminate |].
  destruct (Ascii.eqb c sep); [discriminate |].
  destruct (split sep s); discriminate.
Qed.

Lemma join_cons (a : ascii) (word : string) (words : list string) (sep : string) :
  join sep (String a word :: words) = String a (join sep (word :: words)).
Proof. destruct words; reflexivity. Qed.

(** Splitting at the spaces, capitalizing the words and joining them with
    a space is title case, read in one pass. *)
Lemma join_capitalize_split (s : string) :
  join " " (map capitalize (split " " s)) = titleCase true s /\
  match split " " s with
  | word :: words => join " " (word :: map capitalize words) = titleCase false s
  | [] => False
  end.
Proof.
  induction s as [| c s [IH1 IH2]]; [split; reflexivity |].
  cbn [split titleCase]. destruct (Ascii.eqb c " ") eqn:Ec.
  - apply Ascii.eqb_eq in Ec. subst c.
    destruct (split " " s) as [| word words] eqn:Es; [destruct IH2 |].
    cbn [map] in *.
    change (join " " (capitalize "" :: capitalize word :: map capitalize words))
      with (String " " (join " " (capitalize word :: map capitalize words))).
    change (join " " ("" :: capitalize word :: map capitalize words))
      with (String " " (join " " (capitalize word :: map capitalize words))).
    rewrite IH1. split; reflexivity.
  - destruct (split " " s) as [| word words] eqn:Es; [destruct IH2 |].
    cbn [map] in *. unfold capitalize at 1.
    rewrite !join_cons, IH2. split; reflexivity.
Qed.

Lemma titleCase_length (start : bool) (s : string) :
  String.length (titleCase start s) = String.length s.
Proof.
  revert start. induction s as [| c s IH]; intros start; cbn;
    [reflexivity | now rewrite IH].
Qed.

Lemma replaceAll_length (c d : ascii) (s : string) :
  String.length (replaceAll c d s) = String.length s.
Proof. induction s as [| x s IH]; cbn; [reflexivity | now rewrite IH]. Qed.

(** X21. [formatEquipmentType] shows "N/A" for a missing type. For any
    other type it replaces each underscore by a space, lowers the letters and
    starts every word with an upper-case letter, keeping the length of the
    text, so that dry_van reads "Dry Van", reefer "Reefer" and flatbed
    "Flatbed". *)
Theorem formatEquipmentType_title_case (type : string) :
  nonEmpty type = true ->
  formatEquipmentType type
    = titleCase true (toLowerCase (replaceAll "_" " " type)) /\
  String.length (formatEquipmentType type) = String.length type /\
  formatEquipmentType "" = "N/A" /\
  formatEquipmentType "dry_van" = "Dry Van" /\
  formatEquipmentType "reefer" = "Reefer" /\
  formatEquipmentType "flatbed" = "Flatbed".
Proof.
  intros Hne. unfold formatEquipmentType at 1 2. rewrite Hne. cbn [negb].
  destruct (join_capitalize_split (toLowerCase (replaceAll "_" " " type)))
    as [E _].
  rewrite E. split; [reflexivity |].
  split; [| repeat split].
  now rewrite titleCase_length, toLowerCase_length, replaceAll_length.
Qed.

Lemma formatEquipmentType_title_case_witness :
  formatEquipmentType "LOW_boy trailer"
    = titleCase true (toLowerCase (replaceAll "_" " " "LOW_boy trailer")) /\
  String.length (formatEquipmentType "LOW_boy trailer")
    = String.length "LOW_boy trailer" /\
  formatEquipmentType "" = "N/A" /\
  formatEquipmentType "dry_van" = "Dry Van" /\
  formatEquipmentType "reefer" = "Reefer" /\
  formatEquipmentType "flatbed" = "Flatbed".
Proof.
  apply (formatEquipmentType_title_case "LOW_boy trailer"). reflexivity.
Defined.

End EquipmentLabel.

(** ** The expanded card *)

Section Expansion.
Import HomePage QuoteHistory.

(** X22. After a click on the card with index [i], the only card shown
    expanded is that one, and it is expanded only if it was not before the
    click: at most one card is open at a time and a second click closes
    it. *)
Theorem toggle_expands_one_card (l : list Quote.t) (filters : Filters.t)
    (s : QuoteHistory.State) (i : nat) (noMatch : bool) (cards : list Card)
    (pagination : option Pagination) (k : nat) (q : Quote.t) (b : bool) :
  render l filters (handleToggle i s) = history noMatch cards pagination ->
  (k, q, b) ∈ cards ->
  (b = true <-> k = i /\ expandedIndex s <> Some i).
Proof.
  unfold render. destruct (isHistoryEmpty l filters); [discriminate |].
  intros H Hin. injection H as _ <- _.
  destruct (negb (isFilteredEmpty l filters));
    [| apply elem_of_nil in Hin; destruct Hin].
  apply elem_of_lookup_imap in Hin as (n & y & E & _).
  injection E as -> _ ->.
  unfold handleToggle at 2. cbn [expandedIndex].
  destruct (decide (Some i = expandedIndex s)) as [Ei | Ei].
  - rewrite bool_decide_eq_true. split; [discriminate |].
    intros [_ Hn]. now destruct Hn.
  - rewrite bool_decide_eq_true. split.
    + intros E. injection E as E. split; [exact E |].
      intros E'. now apply Ei.
    + intros [-> _]. reflexivity.
Qed.

Lemma toggle_expands_one_card_witness :
  let f p o := Form.mk o "Ottawa, ON" "dry_van" "5000" p o "Ottawa, ON" in
  let a := quoteOf (f "2025-03-01" "Kingston, ON") 196000 in
  let c := quoteOf (f "2025-03-09" "Sudbury, ON") 483000 in
  (true = true <-> 1%nat = 1%nat /\ Some 0%nat <> Some 1%nat) /\
  (false = true <-> 0%nat = 1%nat /\ Some 0%nat <> Some 1%nat).
Proof.
  intros f a c.
  split.
  - apply (toggle_expands_one_card [a; c] (Filters.mk "" "" "")
             (QuoteHistory.mkState (Some 0%nat) 1) 1 false
             [(0%nat, a, false); (1%nat, c, true)]
             (Some (mkPagination true [(1%nat, true)] true)) 1 c true);
      [reflexivity | apply (list_elem_of_lookup_2 _ 1%nat); reflexivity].
  - apply (toggle_expands_one_card [a; c] (Filters.mk "" "" "")
             (QuoteHistory.mkState (Some 0%nat) 1) 1 false
             [(0%nat, a, false); (1%nat, c, true)]
             (Some (mkPagination true [(1%nat, true)] true)) 0 a false);
      [reflexivity | apply (list_elem_of_lookup_2 _ 0%nat); reflexivity].
Defined.

(** X23. The expanded card is remembered by its index in the list, not by
    its quote: when the card deleted is another one, the index stays, so
    that after the deletion of an earlier quote of the ledger the expanded
    index holds the quote that followed the expanded one, and after the
    deletion of a later quote it holds the same quote. Deleting the expanded
    card itself closes it. The index deleted is the card's position on the
    page plus the start of the page. *)
Theorem expanded_index_survives_deletion (i e : nat) (s : QuoteHistory.State)
    (page : HomePage.State) :
  expandedIndex s = Some e ->
  let index := (i + startIndex s)%nat in
  let s' := fst (onDeleteClick i s page) in
  let page' := snd (onDeleteClick i s page) in
  expandedIndex s' = (if (index =? e)%nat then None else Some e) /\
  quotes page' !! e
    = quotes page !! (if (index <=? e)%nat then S e else e).
Proof.
  intros He index s' page'.
  assert (Hq : quotes page' = delete index (quotes page)).
  { subst page'. unfold onDeleteClick. cbn [snd].
    apply (deleteQuote_ledger index page). }
  assert (Hs : expandedIndex s'
               = if decide (Some index = Some e) then None else Some e).
  { subst s'. unfold onDeleteClick. cbn [fst]. fold index. rewrite He.
    destruct (decide (Some index = Some e));
      destruct (length _ =? 1)%nat; cbn [expandedIndex]; auto. }
  rewrite Hs, Hq. split.
  - destruct (Nat.eqb_spec index e) as [-> | Hne];
      [now rewrite decide_True |].
    rewrite decide_False by (intros E; injection E; lia). reflexivity.
  - destruct (Nat.leb_spec index e) as [Hle | Hlt].
    + apply list_lookup_delete_ge. lia.
    + apply list_lookup_delete_lt. lia.
Qed.

Lemma expanded_index_survives_deletion_witness :
  let f p o := Form.mk o "Ottawa, ON" "dry_van" "5000" p o "Ottawa, ON" in
  let a := quoteOf (f "2025-03-01" "Kingston, ON") 196000 in
  let b := quoteOf (f "2025-03-05" "Toronto, ON") 450000 in
  let c := quoteOf (f "2025-03-09" "Sudbury, ON") 483000 in
  let page :=
    HomePage.mkState (f "" "") None [a; b; c] (Filters.mk "" "" "")
      false "" (<["quotes" := storedQuotes [a; b; c]]> ∅) in
  let s := QuoteHistory.mkState (Some 1%nat) 1 in
  let s' := fst (onDeleteClick 0 s page) in
  let page' := snd (onDeleteClick 0 s page) in
  expandedIndex s' = Some 1%nat /\ quotes page' !! 1%nat = Some c.
Proof.
  intros f a b c page s.
  apply (expanded_index_survives_deletion 0 1 s page). reflexivity.
Defined.

End Expansion.

(** ** The pagination bar *)

Section PaginationBar.
Import QuoteHistory.

Lemma highlighted_button (c n : nat) :
  List.filter snd
    (map (fun page => ((page + 1)%nat, (c =? page + 1)%nat)) (seq 0 n))
  = if ((1 <=? c) && (c <=? n))%nat then [(c, true)] else [].
Proof.
  induction n as [| n IH]; [cbn [seq map List.filter]; now destruct c |].
  rewrite seq_S, map_app, List.filter_app, IH. cbn [map List.filter snd Nat.add].
  destruct (Nat.eqb_spec c (n + 1)) as [-> | Hne].
  - replace (n + 1 <=? n)%nat with false by (symmetry; apply Nat.leb_gt; lia).
    replace (n + 1 <=? S n)%nat with true by (symmetry; apply Nat.leb_le; lia).
    replace (1 <=? n + 1)%nat with true by (symmetry; apply Nat.leb_le; lia).
    reflexivity.
  - rewrite app_nil_r.
    destruct (Nat.leb_spec 1 c); cbn [andb]; [| reflexivity].
    destruct (Nat.leb_spec c n), (Nat.leb_spec c (S n)); try reflexivity; lia.
Qed.

(** X24. On an existing page of a list with quotes the pagination bar has
    one button for each page, numbered from 1 to the number of pages in this
    order, exactly one of them is highlighted, the one of the current page,
    Previous is disabled on the first page only and Next on the last page
    only. *)
Theorem pagination_bar (l : list Quote.t) (filters : Filters.t) (s : State)
    (noMatch : bool) (cards : list Card) (p : Pagination) :
  render l filters s = history noMatch cards (Some p) ->
  onExistingPage s l ->
  map fst (pageButtons p) = seq 1 (totalPages l) /\
  List.filter snd (pageButtons p) = [(currentPage s, true)] /\
  (previousDisabled p = true <-> currentPage s = 1%nat) /\
  (nextDisabled p = true <-> currentPage s = totalPages l).
Proof.
  unfold render. destruct (isHistoryEmpty l filters); [discriminate |].
  destruct (0 <? totalPages l)%nat eqn:Ht; [| discriminate].
  apply Nat.ltb_lt in Ht.
  intros H [H1 H2]. injection H as _ _ <-.
  cbn [pageButtons previousDisabled nextDisabled].
  split; [| split; [| split; apply Nat.eqb_eq]].
  - rewrite map_map. cbn [fst]. rewrite <- seq_shift, map_ext with (g := S);
      [reflexivity | intros a; lia].
  - rewrite highlighted_button.
    replace (1 <=? currentPage s)%nat with true
      by (symmetry; apply Nat.leb_le; lia).
    replace (currentPage s <=? totalPages l)%nat with true
      by (symmetry; apply Nat.leb_le; lia).
    reflexivity.
Qed.

Lemma pagination_bar_witness :
  let f p o := Form.mk o "Ottawa, ON" "dry_van" "5000" p o "Ottawa, ON" in
  let a := quoteOf (f "2025-03-01" "Kingston, ON") 196000 in
  let l := [a; a; a; a; a; a; a] in
  let p := mkPagination false [(1%nat, false); (2%nat, true)] true in
  map fst (pageButtons p) = seq 1 (totalPages l) /\
  List.filter snd (pageButtons p) = [(2%nat, true)] /\
  (previousDisabled p = true <-> 2%nat = 1%nat) /\
  (nextDisabled p = true <-> 2%nat = totalPages l).
Proof.
  intros f a l p.
  apply (pagination_bar l (Filters.mk "" "" "") (mkState None 2) false
           [(5%nat, a, false); (6%nat, a, false)] p).
  - reflexivity.
  - unfold onExistingPage. vm_compute. lia.
Defined.

End PaginationBar.
